(** * simplest_ofdpa_switch13: a two-port OF-DPA bridge, verified

    A shallow embedding of [SimplestSwitch13] (simplest_ofdpa_switch13.py):
    the OF-DPA group-id builders and the switch-features handler that wipes
    a datapath and installs the flow and group entries of a two-port,
    native-VLAN bridge.

    Python integers are unbounded, so every number is a [Z]; a failed
    [assert] and an exception raised by the transport are results of the
    type [res]; the messages handed to the datapath are recorded in an
    explicit world state. *)

From Stdlib Require Import String ZArith List Bool Lia.
Import ListNotations.
Local Open Scope Z_scope.

(* ===================================================================== *)
(** * Exceptions and results *)
(* ===================================================================== *)

(** What a Python call of the program can raise: a failed [assert], or
    whatever the transport below [send_msg] raises (kept opaque). *)
Inductive exn : Type :=
| AssertionError
| RaisedBy (what : string).

Inductive res (A : Type) : Type :=
| Ok (a : A)
| Raise (e : exn).
Arguments Ok {A} a.
Arguments Raise {A} e.

(** [assert(c)] followed by the rest of the body. *)
Definition assert {A : Type} (c : bool) (k : res A) : res A :=
  if c then k else Raise AssertionError.

(* ===================================================================== *)
(** * The OF-DPA group-id builders (lines 166-194) *)
(* ===================================================================== *)

(** [_ofdpa_group_id(self, index, type)] *)
Definition _ofdpa_group_id (index type : Z) : res Z :=
  let TYPE_OFFSET := 28 in
  let MAX_TYPE := 12 in
  let MAX_INDEX := 0xFFFFFFF in
  assert (type <=? MAX_TYPE)
    (assert (index <=? MAX_INDEX)
       (Ok (Z.lor index (Z.shiftl type TYPE_OFFSET)))).

(** [l2_if_group(self, port, vlan_id)]; in Python [<<] binds tighter than
    [|], so [port | vlan_id << 16] is [port | (vlan_id << 16)]. *)
Definition l2_if_group (port vlan_id : Z) : res Z :=
  let MAX_PORT := 0xFFFF in
  assert (port <=? MAX_PORT)
    (let port_vlan := Z.lor port (Z.shiftl vlan_id 16) in
     _ofdpa_group_id port_vlan 0).

(** [l2_unfiltered_if_group(self, port)] *)
Definition l2_unfiltered_if_group (port : Z) : res Z :=
  let MAX_PORT := 0xFFFF in
  assert (port <=? MAX_PORT)
    (_ofdpa_group_id port 11).

(* --------------------------------------------------------------------- *)
(** ** The codec as the specification words it *)
(* --------------------------------------------------------------------- *)

Module GroupIDCodec.

(** A decoded group id: the three bit fields. *)
Record fields : Type := mkFields { f_type : Z; f_mid : Z; f_port : Z }.

(** The field triples the specification calls valid. *)
Definition valid (type mid port : Z) : Prop :=
  0 <= type <= 12 /\ 0 <= mid <= 0xFFF /\ 0 <= port <= 0xFFFF.

(** A 32-bit pattern. *)
Definition uint32 (id : Z) : Prop := 0 <= id < 2 ^ 32.

(** The specification's [encode], written from its words to be compared
    with the source's builders: it fails when an operand exceeds its
    bound and is [port | (mid << 16) | (type << 28)] otherwise.  The
    source has no three-field function, only the two-argument builder
    and the two named constructors above.  The specification calls the
    failure RangeError; the only failure of the source's builders is a
    failed [assert], so the one constructor [AssertionError] stands for
    both. *)
Definition encode (type mid port : Z) : res Z :=
  if (type <=? 12) && (mid <=? 0xFFF) && (port <=? 0xFFFF)
  then Ok (Z.lor (Z.lor port (Z.shiftl mid 16)) (Z.shiftl type 28))
  else Raise AssertionError.

(** Modelled from the spec: [decode] is absent from the source.
    Following the specification it is pure bit extraction: type in bits
    28-31, the middle field in bits 16-27, the port in bits 0-15. *)
Definition decode (id : Z) : fields :=
  {| f_type := Z.land (Z.shiftr id 28) 0xF;
     f_mid := Z.land (Z.shiftr id 16) 0xFFF;
     f_port := Z.land id 0xFFFF |}.

End GroupIDCodec.

(* ===================================================================== *)
(** * The controller library's vocabulary *)
(* ===================================================================== *)

(** The constants the source reads from [datapath.ofproto] and from the
    imported module [ofproto_v1_3]. *)
Record Ofproto : Type := mkOfproto {
  OFPVID_PRESENT : Z;
  OFPTT_ALL : Z;
  OFPFC_ADD : Z;
  OFPFC_DELETE : Z;
  OFPGC_ADD : Z;
  OFPGC_DELETE : Z;
  OFPGT_INDIRECT : Z;
  OFPP_ANY : Z;
  OFPG_ANY : Z;
  OFPG_ALL : Z;
  OFPIT_APPLY_ACTIONS : Z
}.

(** [ryu.ofproto.ofproto_v1_3] is a dependency of the program, not part of
    it; these are the values of the OpenFlow 1.3 wire protocol it holds. *)
Definition ofproto_v1_3 : Ofproto :=
  {| OFPVID_PRESENT := 0x1000;
     OFPTT_ALL := 0xff;
     OFPFC_ADD := 0;
     OFPFC_DELETE := 3;
     OFPGC_ADD := 0;
     OFPGC_DELETE := 2;
     OFPGT_INDIRECT := 2;
     OFPP_ANY := 0xffffffff;
     OFPG_ANY := 0xffffffff;
     OFPG_ALL := 0xfffffffc;
     OFPIT_APPLY_ACTIONS := 4 |}.

(** [ev.msg.datapath]: the attributes the program reads. *)
Record Datapath : Type := mkDatapath {
  datapath_id : Z;
  datapath_ofproto : Ofproto
}.

(** A datapath of the negotiated version, [OFP_VERSIONS]. *)
Definition datapath13 (dpid : Z) : Datapath :=
  {| datapath_id := dpid; datapath_ofproto := ofproto_v1_3 |}.

(** [parser.OFPMatch(in_port=..., vlan_vid=...)]; a keyword that is not
    passed is [None]. *)
Record OFPMatch : Type := mkMatch {
  in_port : option Z;
  vlan_vid : option Z
}.

(** The action constructors of the parser.  [OFPActionPushVlan] occurs in
    the source only inside a comment (line 89). *)
Inductive action : Type :=
| OFPActionSetField_vlan_vid (vid : Z)
| OFPActionPushVlan (ethertype : Z)
| OFPActionPopVlan
| OFPActionOutput (port : Z)
| OFPActionGroup (group_id : Z).

Inductive instruction : Type :=
| OFPInstructionActions (type_ : Z) (actions : list action)
| OFPInstructionGotoTable (table_id : Z).

Record OFPBucket : Type := mkBucket { bucket_actions : list action }.

(** [parser.OFPFlowMod(datapath=..., ...)], keyword by keyword. *)
Record OFPFlowMod : Type := mkFlowMod {
  fm_datapath : Datapath;
  fm_buffer_id : option Z;
  fm_priority : option Z;
  fm_match : option OFPMatch;
  fm_table_id : option Z;
  fm_instructions : option (list instruction);
  fm_command : option Z;
  fm_out_port : option Z;
  fm_out_group : option Z
}.

(** [parser.OFPGroupMod(datapath, command, type_, group_id, buckets)],
    positional; [del_groups] passes no buckets. *)
Record OFPGroupMod : Type := mkGroupMod {
  gm_datapath : Datapath;
  gm_command : Z;
  gm_type : Z;
  gm_group_id : Z;
  gm_buckets : option (list OFPBucket)
}.

Inductive msg : Type :=
| FlowMod (m : OFPFlowMod)
| GroupMod (m : OFPGroupMod).

(** The two ways the program hands a message to the transport:
    [datapath.send_msg(m)] and [api.send_msg(self, m)]. *)
Inductive call : Type :=
| datapath_send_msg (m : msg)
| api_send_msg (m : msg).

Definition call_msg (c : call) : msg :=
  match c with datapath_send_msg m | api_send_msg m => m end.

(* ===================================================================== *)
(** * Effects: the world the handler runs in *)
(* ===================================================================== *)

(** A line written by [logging.info]. *)
Inductive log_record : Type :=
| Configuring_new_datapath (dpid : Z).

(** [sent]: the messages the transport accepted, oldest first;
    [log]: what [logging.info] wrote;
    [stderr]: the tracebacks [traceback.print_exc] wrote. *)
Record World : Type := mkWorld {
  sent : list call;
  log : list log_record;
  stderr : list exn
}.

Definition World0 : World := {| sent := []; log := []; stderr := [] |}.

(** A computation that reads and writes the world and may raise. *)
Definition M (A : Type) : Type := World -> res A * World.

Definition ret {A : Type} (a : A) : M A := fun w => (Ok a, w).

Definition bind {A B : Type} (c : M A) (k : A -> M B) : M B :=
  fun w =>
    match c w with
    | (Ok a, w') => k a w'
    | (Raise e, w') => (Raise e, w')
    end.

Definition lift {A : Type} (r : res A) : M A := fun w => (r, w).

Declare Scope handler_scope.
Delimit Scope handler_scope with handler.
Notation "x <- c ;; k" := (bind c (fun x => k))
  (at level 100, c at next level, right associativity) : handler_scope.
Notation "c ;; k" := (bind c (fun _ => k))
  (at level 100, right associativity) : handler_scope.
Local Open Scope handler_scope.

(** [for x in xs: body] *)
Fixpoint for_each {A : Type} (xs : list A) (body : A -> M unit) : M unit :=
  match xs with
  | [] => ret tt
  | x :: xs' => body x ;; for_each xs' body
  end.

(** [try: body / except: traceback.print_exc()]: the bare [except] catches
    every exception, writes its traceback and falls through. *)
Definition try_except_print_exc (body : M unit) : M unit :=
  fun w =>
    match body w with
    | (Ok _, w') => (Ok tt, w')
    | (Raise e, w') =>
        (Ok tt, {| sent := sent w'; log := log w'; stderr := stderr w' ++ [e] |})
    end.

Definition logging_info (r : log_record) : M unit :=
  fun w => (Ok tt, {| sent := sent w; log := log w ++ [r]; stderr := stderr w |}).

(** Python's truth value of [buffer_id]: [None] and [0] are false. *)
Definition truthy (buffer_id : option Z) : bool :=
  match buffer_id with
  | None => false
  | Some b => negb (b =? 0)
  end.

(* ===================================================================== *)
(** * class SimplestSwitch13 (lines 42-164) *)
(* ===================================================================== *)

Definition ACL_TABLE : Z := 60.
Definition VLAN_TABLE : Z := 10.
Definition TERMINATION_MAC : Z := 20.

(** The [mod] that [add_flow] builds before sending it (lines 118-134).
    [table_id] and [buffer_id] have the defaults [ACL_TABLE] and [None] in
    the source; callers here pass them. *)
Definition add_flow_mod (datapath : Datapath) (priority : Z)
    (match_ : OFPMatch) (actions : list action) (buffer_id : option Z)
    (table_id : Z) (goto : option Z) : OFPFlowMod :=
  let ofproto := datapath_ofproto datapath in
  let inst := [OFPInstructionActions (OFPIT_APPLY_ACTIONS ofproto) actions] in
  let inst :=
    match goto with
    | Some g => inst ++ [OFPInstructionGotoTable g]
    | None => inst
    end in
  if truthy buffer_id then
    {| fm_datapath := datapath; fm_buffer_id := buffer_id;
       fm_priority := Some priority; fm_match := Some match_;
       fm_table_id := Some table_id; fm_instructions := Some inst;
       fm_command := None; fm_out_port := None; fm_out_group := None |}
  else
    {| fm_datapath := datapath; fm_buffer_id := None;
       fm_priority := Some priority; fm_match := Some match_;
       fm_table_id := Some table_id; fm_instructions := Some inst;
       fm_command := None; fm_out_port := None; fm_out_group := None |}.

(** The message of [add_group] (lines 141-142); the source passes
    [ofproto.OFPFC_ADD] as the group command. *)
Definition add_group_msg (datapath : Datapath) (buckets : list OFPBucket)
    (group_id group_type : Z) : OFPGroupMod :=
  let ofproto := datapath_ofproto datapath in
  {| gm_datapath := datapath; gm_command := OFPFC_ADD ofproto;
     gm_type := group_type; gm_group_id := group_id;
     gm_buckets := Some buckets |}.

(** The message of [del_groups] (lines 150-151). *)
Definition del_groups_msg (datapath : Datapath) : OFPGroupMod :=
  let ofproto := datapath_ofproto datapath in
  {| gm_datapath := datapath; gm_command := OFPGC_DELETE ofproto;
     gm_type := 0; gm_group_id := OFPG_ALL ofproto; gm_buckets := None |}.

(** The message of [del_flows] (lines 159-163). *)
Definition del_flows_msg (datapath : Datapath) : OFPFlowMod :=
  let ofproto := datapath_ofproto datapath in
  {| fm_datapath := datapath; fm_buffer_id := None; fm_priority := None;
     fm_match := None; fm_table_id := Some (OFPTT_ALL ofproto);
     fm_instructions := None; fm_command := Some (OFPFC_DELETE ofproto);
     fm_out_port := Some (OFPP_ANY ofproto);
     fm_out_group := Some (OFPG_ANY ofproto) |}.

Section SimplestSwitch13.

(** The transport: given the calls it has accepted so far and the call
    being made, it accepts the message or raises. *)
Variable link : list call -> call -> option exn.

Definition send (c : call) : M unit :=
  fun w =>
    match link (sent w) c with
    | Some e => (Raise e, w)
    | None =>
        (Ok tt, {| sent := sent w ++ [c]; log := log w; stderr := stderr w |})
    end.

Definition add_flow (datapath : Datapath) (priority : Z)
    (match_ : OFPMatch) (actions : list action) (buffer_id : option Z)
    (table_id : Z) (goto : option Z) : M unit :=
  let mod_ := add_flow_mod datapath priority match_ actions buffer_id
                table_id goto in
  send (datapath_send_msg (FlowMod mod_)).

Definition add_group (datapath : Datapath) (buckets : list OFPBucket)
    (group_id group_type : Z) : M unit :=
  let msg := add_group_msg datapath buckets group_id group_type in
  send (datapath_send_msg (GroupMod msg)).

Definition del_groups (datapath : Datapath) : M unit :=
  send (api_send_msg (GroupMod (del_groups_msg datapath))).

Definition del_flows (datapath : Datapath) : M unit :=
  send (api_send_msg (FlowMod (del_flows_msg datapath))).

(** The body of the first loop (lines 79-94), for one port. *)
Definition vlan_entries (datapath : Datapath) (n_vlan n_vlan_match : Z)
    (port : Z) : M unit :=
  let match_ := {| in_port := Some port; vlan_vid := Some n_vlan_match |} in
  let actions := [] in
  add_flow datapath 3 match_ actions None VLAN_TABLE (Some TERMINATION_MAC) ;;
  let match_ := {| in_port := Some port; vlan_vid := Some 0 |} in
  let actions := [OFPActionSetField_vlan_vid n_vlan] in
  add_flow datapath 3 match_ actions None VLAN_TABLE (Some TERMINATION_MAC).

(** The body of the second loop (lines 97-102), for one port. *)
Definition port_group (datapath : Datapath) (n_vlan : Z) (port : Z)
    : M unit :=
  let ofproto := datapath_ofproto datapath in
  group_id <- lift (l2_if_group port n_vlan) ;;
  let bkt :=
    [ {| bucket_actions := [OFPActionPopVlan; OFPActionOutput port] |} ] in
  add_group datapath bkt group_id (OFPGT_INDIRECT ofproto).

(** Lines 54-112: what the [try] encloses. *)
Definition switch_features_body (datapath : Datapath) : M unit :=
  let n_vlan := 0x1 in
  let n_vlan_match := Z.lor n_vlan (OFPVID_PRESENT ofproto_v1_3) in
  logging_info (Configuring_new_datapath (datapath_id datapath)) ;;
  del_flows datapath ;;
  del_groups datapath ;;
  (let match_ := {| in_port := None; vlan_vid := None |} in
   let actions := [] in
   add_flow datapath 0 match_ actions None ACL_TABLE None) ;;
  let ports := [1; 2] in
  for_each ports (vlan_entries datapath n_vlan n_vlan_match) ;;
  for_each ports (port_group datapath n_vlan) ;;
  (let match_ := {| in_port := Some 1; vlan_vid := Some n_vlan_match |} in
   g <- lift (l2_if_group 2 n_vlan) ;;
   let actions := [OFPActionGroup g] in
   add_flow datapath 1000 match_ actions None ACL_TABLE None) ;;
  (let match_ := {| in_port := Some 2; vlan_vid := Some n_vlan_match |} in
   g <- lift (l2_if_group 1 n_vlan) ;;
   let actions := [OFPActionGroup g] in
   add_flow datapath 1000 match_ actions None ACL_TABLE None).

(** [switch_features_handler(self, ev)], with [datapath = ev.msg.datapath]. *)
Definition switch_features_handler (datapath : Datapath) : M unit :=
  try_except_print_exc (switch_features_body datapath).

(** One provisioning cycle on a fresh world. *)
Definition cycle (datapath : Datapath) : World :=
  snd (switch_features_handler datapath World0).

End SimplestSwitch13.

(** A transport that accepts every message. *)
Definition reliable : list call -> call -> option exn := fun _ _ => None.

(* ===================================================================== *)
(** * Reading a trace of calls *)
(* ===================================================================== *)

(** The command of a flow-mod; [OFPFlowMod] defaults to [OFPFC_ADD] when
    the keyword is not passed. *)
Definition flow_command (m : OFPFlowMod) : Z :=
  match fm_command m with
  | Some c => c
  | None => OFPFC_ADD ofproto_v1_3
  end.

Definition instruction_actions (i : instruction) : list action :=
  match i with
  | OFPInstructionActions _ actions => actions
  | OFPInstructionGotoTable _ => []
  end.

Definition instruction_goto (i : instruction) : list Z :=
  match i with
  | OFPInstructionActions _ _ => []
  | OFPInstructionGotoTable t => [t]
  end.

(** The action list of a flow entry, and its goto-successors. *)
Definition flow_actions (m : OFPFlowMod) : list action :=
  match fm_instructions m with
  | Some inst => flat_map instruction_actions inst
  | None => []
  end.

Definition flow_goto (m : OFPFlowMod) : list Z :=
  match fm_instructions m with
  | Some inst => flat_map instruction_goto inst
  | None => []
  end.

Definition action_group (a : action) : list Z :=
  match a with
  | OFPActionGroup g => [g]
  | _ => []
  end.

Definition is_push_vlan (a : action) : bool :=
  match a with
  | OFPActionPushVlan _ => true
  | _ => false
  end.

(** The flow entries and the group entries a trace installs, in order. *)
Definition flow_install (c : call) : list OFPFlowMod :=
  match call_msg c with
  | FlowMod m => if flow_command m =? OFPFC_ADD ofproto_v1_3 then [m] else []
  | GroupMod _ => []
  end.

Definition group_install (c : call) : list OFPGroupMod :=
  match call_msg c with
  | FlowMod _ => []
  | GroupMod m => if gm_command m =? OFPGC_ADD ofproto_v1_3 then [m] else []
  end.

Definition flow_entries (tr : list call) : list OFPFlowMod :=
  flat_map flow_install tr.

Definition group_entries (tr : list call) : list OFPGroupMod :=
  flat_map group_install tr.

(** A flow entry as the specification's FlowEntry: table, priority, match,
    actions, goto-successors. *)
Definition flow_view (m : OFPFlowMod)
    : option Z * option Z * option OFPMatch * list action * list Z :=
  (fm_table_id m, fm_priority m, fm_match m, flow_actions m, flow_goto m).

(** A group entry as the specification's GroupEntry: type, id, buckets. *)
Definition group_view (m : OFPGroupMod) : Z * Z * list (list action) :=
  (gm_type m, gm_group_id m,
   match gm_buckets m with
   | Some bs => map bucket_actions bs
   | None => []
   end).

Definition in_table (t : Z) (m : OFPFlowMod) : bool :=
  match fm_table_id m with
  | Some t' => t' =? t
  | None => false
  end.

Definition has_priority (p : Z) (m : OFPFlowMod) : bool :=
  match fm_priority m with
  | Some p' => p' =? p
  | None => false
  end.

(** The call installs something: a flow entry or a group entry. *)
Definition is_install (c : call) : Prop :=
  flow_install c <> [] \/ group_install c <> [].

(** The call installs the group [g]. *)
Definition installs_group (g : Z) (c : call) : Prop :=
  exists m, In m (group_install c) /\ gm_group_id m = g.

(** The call installs a flow entry with an action [OFPActionGroup g]. *)
Definition references_group (g : Z) (c : call) : Prop :=
  exists m, In m (flow_install c) /\ In (OFPActionGroup g) (flow_actions m).

(** The two wipe calls for a datapath. *)
Definition wipe_flows (datapath : Datapath) : call :=
  api_send_msg (FlowMod (del_flows_msg datapath)).

Definition wipe_groups (datapath : Datapath) : call :=
  api_send_msg (GroupMod (del_groups_msg datapath)).

(** Ordering properties of a trace. *)
Definition groups_precede_references (tr : list call) : Prop :=
  forall i c g,
    nth_error tr i = Some c -> references_group g c ->
    exists j c', (j < i)%nat /\ nth_error tr j = Some c' /\ installs_group g c'.

Definition wipes_precede_installs (datapath : Datapath) (tr : list call)
    : Prop :=
  forall i c,
    nth_error tr i = Some c -> is_install c ->
    exists j k, (j < i)%nat /\ (k < i)%nat /\
      nth_error tr j = Some (wipe_flows datapath) /\
      nth_error tr k = Some (wipe_groups datapath).

(** The eleven calls of an undisturbed cycle, in the order the handler
    makes them: the prefix of length [n] is what a cycle has sent when the
    call number [n] raises. *)
Definition full_trace (datapath : Datapath) : list call :=
  sent (cycle reliable datapath).

(* ===================================================================== *)
(** * The switch behind the transport *)
(* ===================================================================== *)

Definition option_Z_eqb (a b : option Z) : bool :=
  match a, b with
  | Some x, Some y => x =? y
  | None, None => true
  | _, _ => false
  end.

Definition match_eqb (a b : option OFPMatch) : bool :=
  match a, b with
  | Some x, Some y =>
      option_Z_eqb (in_port x) (in_port y) &&
      option_Z_eqb (vlan_vid x) (vlan_vid y)
  | None, None => true
  | _, _ => false
  end.

(** Two flow entries occupy the same slot: same table, priority and match. *)
Definition same_slot (a b : OFPFlowMod) : bool :=
  option_Z_eqb (fm_table_id a) (fm_table_id b) &&
  option_Z_eqb (fm_priority a) (fm_priority b) &&
  match_eqb (fm_match a) (fm_match b).

(** Modelled from the spec: the switch is an external collaborator, "a
    write-only sink accepting FlowEntry/GroupEntry mutations and wipe
    commands"; its state is the flow entries and the group entries it
    holds. *)
Record Switch : Type := mkSwitch {
  flows : list OFPFlowMod;
  groups : list OFPGroupMod
}.

(** Modelled from the spec: what a message does to the switch.  The
    delete-all flow-mod (all tables, any out-port, any out-group, no
    match) empties the flow tables; the delete of [OFPG_ALL] empties the
    group table; an add of a flow entry replaces the entry in the same
    slot, if any; an add of a group whose id is taken is refused.  The
    program sends nothing else, and anything else leaves the switch as it
    is. *)
Definition apply_msg (s : Switch) (m : msg) : Switch :=
  let p := ofproto_v1_3 in
  match m with
  | FlowMod fm =>
      if flow_command fm =? OFPFC_ADD p then
        {| flows := filter (fun x => negb (same_slot x fm)) (flows s) ++ [fm];
           groups := groups s |}
      else if (flow_command fm =? OFPFC_DELETE p)
              && option_Z_eqb (fm_table_id fm) (Some (OFPTT_ALL p))
              && option_Z_eqb (fm_out_port fm) (Some (OFPP_ANY p))
              && option_Z_eqb (fm_out_group fm) (Some (OFPG_ANY p))
              && match_eqb (fm_match fm) None then
        {| flows := []; groups := groups s |}
      else s
  | GroupMod gm =>
      if gm_command gm =? OFPGC_ADD p then
        if existsb (fun x => gm_group_id x =? gm_group_id gm) (groups s)
        then s
        else {| flows := flows s; groups := groups s ++ [gm] |}
      else if (gm_command gm =? OFPGC_DELETE p)
              && (gm_group_id gm =? OFPG_ALL p) then
        {| flows := flows s; groups := [] |}
      else s
  end.

(** The switch after the transport delivered a trace. *)
Definition deliver (tr : list call) (s : Switch) : Switch :=
  fold_left (fun s c => apply_msg s (call_msg c)) tr s.

(** One undisturbed provisioning cycle, seen from the switch. *)
Definition provision (dpid : Z) (s : Switch) : Switch :=
  deliver (full_trace (datapath13 dpid)) s.

Definition same_set {A : Type} (l1 l2 : list A) : Prop :=
  forall x, In x l1 <-> In x l2.

(** The plan of a cycle: the calls of [full_trace], made in order until
    one raises. *)
Definition run_plan (link : list call -> call -> option exn)
    (calls : list call) : M unit :=
  for_each calls (send link).

(** The call that installs the table-miss entry (lines 70-72). *)
Definition table_miss_call (datapath : Datapath) : call :=
  datapath_send_msg
    (FlowMod (add_flow_mod datapath 0 {| in_port := None; vlan_vid := None |}
                [] None ACL_TABLE None)).

(** A transport whose call number [n] (from 0) raises and which accepts
    every other call. *)
Definition fails_at (n : nat) (e : exn) : list call -> call -> option exn :=
  fun history _ => if Nat.eqb (length history) n then Some e else None.

(** The handler lets the failure of a call reach its own caller: when a
    call of the cycle raises, the calls before it having been accepted,
    the handler raises that exception. *)
Definition handler_propagates (link : list call -> call -> option exn)
    (datapath : Datapath) : Prop :=
  forall k c e,
    nth_error (full_trace datapath) k = Some c ->
    (forall j c', (j < k)%nat ->
       nth_error (full_trace datapath) j = Some c' ->
       link (firstn j (full_trace datapath)) c' = None) ->
    link (firstn k (full_trace datapath)) c = Some e ->
    fst (switch_features_handler link datapath World0) = Raise e.

(* ===================================================================== *)
(** * Reading messages: further views *)
(* ===================================================================== *)

(** The datapath a message was built for. *)
Definition msg_datapath (m : msg) : Datapath :=
  match m with
  | FlowMod fm => fm_datapath fm
  | GroupMod gm => gm_datapath gm
  end.

(** The call went through [api.send_msg]. *)
Definition is_api (c : call) : bool :=
  match c with
  | api_send_msg _ => true
  | datapath_send_msg _ => false
  end.

Definition action_output (a : action) : list Z :=
  match a with
  | OFPActionOutput p => [p]
  | _ => []
  end.

(** The ports the buckets of a group output to. *)
Definition group_outputs (m : OFPGroupMod) : list Z :=
  match gm_buckets m with
  | Some bs => flat_map (fun b => flat_map action_output (bucket_actions b)) bs
  | None => []
  end.

(** The group ids the actions of a flow entry reference. *)
Definition flow_groups (m : OFPFlowMod) : list Z :=
  flat_map action_group (flow_actions m).

(** The slot of a flow entry: table, priority and match. *)
Definition flow_slot (m : OFPFlowMod)
    : option Z * option Z * option OFPMatch :=
  (fm_table_id m, fm_priority m, fm_match m).

(** The ingress port a flow entry matches on, if any. *)
Definition flow_in_port (m : OFPFlowMod) : option Z :=
  match fm_match m with
  | Some mt => in_port mt
  | None => None
  end.

(** The call [port_group] makes for a port whose group id is [group_id]
    (lines 99-102). *)
Definition port_group_call (datapath : Datapath) (port group_id : Z) : call :=
  datapath_send_msg
    (GroupMod
       (add_group_msg datapath
          [ {| bucket_actions := [OFPActionPopVlan; OFPActionOutput port] |} ]
          group_id (OFPGT_INDIRECT (datapath_ofproto datapath)))).

(** The two calls [vlan_entries] makes for a port (lines 81-94). *)
Definition vlan_entries_calls (datapath : Datapath)
    (n_vlan n_vlan_match port : Z) : list call :=
  [ datapath_send_msg
      (FlowMod
         (add_flow_mod datapath 3
            {| in_port := Some port; vlan_vid := Some n_vlan_match |}
            [] None VLAN_TABLE (Some TERMINATION_MAC)));
    datapath_send_msg
      (FlowMod
         (add_flow_mod datapath 3
            {| in_port := Some port; vlan_vid := Some 0 |}
            [OFPActionSetField_vlan_vid n_vlan] None VLAN_TABLE
            (Some TERMINATION_MAC))) ].

(* ===================================================================== *)
(** * Bit fields *)
(* ===================================================================== *)

(** Or-ing a value below [2^n] with a value shifted left by [n] adds them:
    the two occupy disjoint bits. *)
Lemma lor_shiftl_add (lo hi n : Z) :
  0 <= n -> 0 <= lo < 2 ^ n ->
  Z.lor lo (Z.shiftl hi n) = lo + hi * 2 ^ n.
Proof.
  intros Hn Hlo.
  rewrite <- (Z.shiftl_mul_pow2 hi n Hn).
  rewrite <- Z.add_lor_land.
  assert (Hz : Z.land lo (Z.shiftl hi n) = 0).
  { apply Z.bits_inj'. intros k Hk.
    rewrite Z.land_spec, Z.bits_0.
    destruct (Z.lt_ge_cases k n) as [Hlt | Hge].
    - rewrite (Z.shiftl_spec_low hi n k Hlt). apply andb_false_r.
    - replace lo with (lo mod 2 ^ n) by (apply Z.mod_small; exact Hlo).
      rewrite Z.mod_pow2_bits_high by lia. reflexivity. }
  rewrite Hz. lia.
Qed.

(** The three fields, packed by sums, are read back by [decode]. *)
Lemma decode_packed (type mid port : Z) :
  0 <= type < 16 -> 0 <= mid <= 0xFFF -> 0 <= port <= 0xFFFF ->
  GroupIDCodec.decode (port + mid * 2 ^ 16 + type * 2 ^ 28)
  = GroupIDCodec.mkFields type mid port.
Proof.
  intros Ht Hm Hp. unfold GroupIDCodec.decode.
  change 0xF with (Z.ones 4). change 0xFFF with (Z.ones 12).
  change 0xFFFF with (Z.ones 16).
  rewrite !Z.land_ones by lia. rewrite !Z.shiftr_div_pow2 by lia.
  change (2 ^ 4) with 16. change (2 ^ 12) with 4096.
  change (2 ^ 16) with 65536. change (2 ^ 28) with 268435456.
  change 0xFFF with 4095 in Hm. change 0xFFFF with 65535 in Hp.
  f_equal; Z.div_mod_to_equations; lia.
Qed.

(** On operands that are not negative the builder either fails or adds
    the type above the index. *)
Lemma ofdpa_group_id_ok (index type : Z) :
  0 <= index <= 0xFFFFFFF -> type <= 12 ->
  _ofdpa_group_id index type = Ok (index + type * 2 ^ 28).
Proof.
  intros Hi Ht. unfold _ofdpa_group_id, assert.
  destruct (Z.leb_spec type 12); [| lia].
  destruct (Z.leb_spec index 0xFFFFFFF); [| lia].
  rewrite lor_shiftl_add; [reflexivity | lia |].
  change (2 ^ 28) with 268435456. change 0xFFFFFFF with 268435455 in Hi. lia.
Qed.

Lemma l2_if_group_ok (port vlan_id : Z) :
  0 <= port <= 0xFFFF -> 0 <= vlan_id <= 0xFFF ->
  l2_if_group port vlan_id = Ok (port + vlan_id * 2 ^ 16).
Proof.
  intros Hp Hv. unfold l2_if_group, assert.
  destruct (Z.leb_spec port 0xFFFF); [| lia].
  change 0xFFFF with 65535 in *. change 0xFFF with 4095 in *.
  rewrite lor_shiftl_add by (change (2 ^ 16) with 65536; lia).
  rewrite ofdpa_group_id_ok.
  - f_equal. lia.
  - change (2 ^ 16) with 65536. change 0xFFFFFFF with 268435455. lia.
  - lia.
Qed.

Lemma l2_unfiltered_if_group_ok (port : Z) :
  0 <= port <= 0xFFFF ->
  l2_unfiltered_if_group port = Ok (port + 11 * 2 ^ 28).
Proof.
  intros Hp. unfold l2_unfiltered_if_group, assert.
  destruct (Z.leb_spec port 0xFFFF); [| lia].
  apply ofdpa_group_id_ok; [| lia].
  change 0xFFFF with 65535 in *. change 0xFFFFFFF with 268435455. lia.
Qed.

Lemma encode_ok (type mid port : Z) :
  GroupIDCodec.valid type mid port ->
  GroupIDCodec.encode type mid port
  = Ok (port + mid * 2 ^ 16 + type * 2 ^ 28).
Proof.
  intros (Ht & Hm & Hp). unfold GroupIDCodec.encode.
  destruct (Z.leb_spec type 12); [| lia].
  destruct (Z.leb_spec mid 0xFFF); [| lia].
  destruct (Z.leb_spec port 0xFFFF); [| lia].
  cbn [andb].
  change 0xFFFF with 65535 in *. change 0xFFF with 4095 in *.
  rewrite (lor_shiftl_add port mid 16) by (change (2 ^ 16) with 65536; lia).
  rewrite lor_shiftl_add; [reflexivity | lia |].
  change (2 ^ 16) with 65536. change (2 ^ 28) with 268435456. lia.
Qed.

(** A builder call that returns passed both assertions. *)
Lemma ofdpa_group_id_inv (index type id : Z) :
  0 <= index -> 0 <= type ->
  _ofdpa_group_id index type = Ok id ->
  type <= 12 /\ index <= 0xFFFFFFF /\ id = index + type * 2 ^ 28.
Proof.
  intros Hi Ht Hok.
  destruct (Z.le_gt_cases type 12) as [Ht12 | Ht12].
  - destruct (Z.le_gt_cases index 0xFFFFFFF) as [Hi' | Hi'].
    + rewrite ofdpa_group_id_ok in Hok by lia.
      injection Hok as <-. repeat split; assumption.
    + exfalso. revert Hok. unfold _ofdpa_group_id, assert.
      destruct (Z.leb_spec type 12); [| discriminate].
      destruct (Z.leb_spec index 0xFFFFFFF); [lia | discriminate].
  - exfalso. revert Hok. unfold _ofdpa_group_id, assert.
    destruct (Z.leb_spec type 12); [lia | discriminate].
Qed.

(** [decode] reads every 32-bit pattern, and packing the fields it reads
    gives the pattern back. *)
Lemma decode_repack (id : Z) :
  GroupIDCodec.uint32 id ->
  let f := GroupIDCodec.decode id in
  0 <= GroupIDCodec.f_type f <= 0xF /\
  0 <= GroupIDCodec.f_mid f <= 0xFFF /\
  0 <= GroupIDCodec.f_port f <= 0xFFFF /\
  GroupIDCodec.f_port f + GroupIDCodec.f_mid f * 2 ^ 16
    + GroupIDCodec.f_type f * 2 ^ 28 = id.
Proof.
  unfold GroupIDCodec.uint32, GroupIDCodec.decode. intros Hid.
  cbn [GroupIDCodec.f_type GroupIDCodec.f_mid GroupIDCodec.f_port].
  assert (E4 : forall x, Z.land x 0xF = x mod 16)
    by (intro x; change 0xF with (Z.ones 4); apply Z.land_ones; lia).
  assert (E12 : forall x, Z.land x 0xFFF = x mod 4096)
    by (intro x; change 0xFFF with (Z.ones 12); apply Z.land_ones; lia).
  assert (E16 : forall x, Z.land x 0xFFFF = x mod 65536)
    by (intro x; change 0xFFFF with (Z.ones 16); apply Z.land_ones; lia).
  rewrite E4, E12, E16. rewrite !Z.shiftr_div_pow2 by lia.
  change (2 ^ 16) with 65536. change (2 ^ 28) with 268435456.
  change (2 ^ 32) with 4294967296 in Hid.
  Z.div_mod_to_equations. lia.
Qed.

(* ===================================================================== *)
(** * The group-id codec: the claims *)
(* ===================================================================== *)

(** C3.  For every valid field triple (type <= 12, mid <= 0xFFF,
    port <= 0xFFFF) the encoding is [port | (mid << 16) | (type << 28)],
    the source's builder produces it from the index [port | (mid << 16)],
    it is a 32-bit pattern, [decode] gives the triple back, and it is the
    only 32-bit pattern that decodes to the triple. *)
Theorem codec_round_trip (type mid port : Z) :
  GroupIDCodec.valid type mid port ->
  exists id,
    GroupIDCodec.encode type mid port = Ok id /\
    id = Z.lor (Z.lor port (Z.shiftl mid 16)) (Z.shiftl type 28) /\
    _ofdpa_group_id (Z.lor port (Z.shiftl mid 16)) type = Ok id /\
    GroupIDCodec.uint32 id /\
    GroupIDCodec.decode id = GroupIDCodec.mkFields type mid port /\
    (forall id', GroupIDCodec.uint32 id' ->
       GroupIDCodec.decode id' = GroupIDCodec.mkFields type mid port ->
       id' = id).
Proof.
  intros Hv. pose proof Hv as (Ht & Hm & Hp).
  change 0xFFFF with 65535 in Hp. change 0xFFF with 4095 in Hm.
  assert (H16 : Z.lor port (Z.shiftl mid 16) = port + mid * 2 ^ 16)
    by (apply lor_shiftl_add; change (2 ^ 16) with 65536; lia).
  exists (port + mid * 2 ^ 16 + type * 2 ^ 28).
  split; [apply encode_ok; exact Hv |].
  split.
  { rewrite H16. symmetry. apply lor_shiftl_add; [lia |].
    change (2 ^ 16) with 65536. change (2 ^ 28) with 268435456. lia. }
  split.
  { rewrite H16. apply ofdpa_group_id_ok; [| lia].
    change (2 ^ 16) with 65536. change 0xFFFFFFF with 268435455. lia. }
  split.
  { unfold GroupIDCodec.uint32. change (2 ^ 16) with 65536.
    change (2 ^ 28) with 268435456. change (2 ^ 32) with 4294967296. lia. }
  split.
  { apply decode_packed; change 0xFFFF with 65535; change 0xFFF with 4095; lia. }
  intros id' Hid' Hdec.
  destruct (decode_repack id' Hid') as (_ & _ & _ & Hre).
  rewrite Hdec in Hre. cbn in Hre. rewrite <- Hre. reflexivity.
Qed.

Lemma codec_round_trip_witness :
  GroupIDCodec.valid 12 0xFFF 0xFFFF /\
  exists id,
    GroupIDCodec.encode 12 0xFFF 0xFFFF = Ok id /\
    id = Z.lor (Z.lor 0xFFFF (Z.shiftl 0xFFF 16)) (Z.shiftl 12 28) /\
    _ofdpa_group_id (Z.lor 0xFFFF (Z.shiftl 0xFFF 16)) 12 = Ok id /\
    GroupIDCodec.uint32 id /\
    GroupIDCodec.decode id = GroupIDCodec.mkFields 12 0xFFF 0xFFFF /\
    (forall id', GroupIDCodec.uint32 id' ->
       GroupIDCodec.decode id' = GroupIDCodec.mkFields 12 0xFFF 0xFFFF ->
       id' = id).
Proof.
  assert (Hv : GroupIDCodec.valid 12 0xFFF 0xFFFF)
    by (unfold GroupIDCodec.valid; lia).
  split; [exact Hv | apply (codec_round_trip 12 0xFFF 0xFFFF Hv)].
Defined.

(** A builder call with the type or the index above its bound fails. *)
Lemma ofdpa_group_id_raise (index type : Z) :
  12 < type \/ 0xFFFFFFF < index ->
  _ofdpa_group_id index type = Raise AssertionError.
Proof.
  intros H. unfold _ofdpa_group_id, assert.
  destruct (Z.leb_spec type 12); [| reflexivity].
  destruct (Z.leb_spec index 0xFFFFFFF); [lia | reflexivity].
Qed.

(** On a port and a vlan that are not negative, [l2_if_group] is the
    specification's [encode] with type 0, failures included. *)
Lemma l2_if_group_encode (port vlan_id : Z) :
  0 <= port -> 0 <= vlan_id ->
  l2_if_group port vlan_id = GroupIDCodec.encode 0 vlan_id port.
Proof.
  intros Hp Hv.
  destruct (Z.le_gt_cases port 0xFFFF) as [Hple | Hpgt].
  - destruct (Z.le_gt_cases vlan_id 0xFFF) as [Hvle | Hvgt].
    + rewrite l2_if_group_ok by lia.
      rewrite encode_ok by (unfold GroupIDCodec.valid; lia).
      f_equal. lia.
    + unfold l2_if_group, assert, GroupIDCodec.encode.
      destruct (Z.leb_spec port 0xFFFF); [| lia].
      destruct (Z.leb_spec vlan_id 0xFFF); [lia |].
      cbn [Z.leb andb]. rewrite andb_false_r. cbn [andb].
      apply ofdpa_group_id_raise. right.
      change 0xFFFF with 65535 in *. change 0xFFF with 4095 in *.
      rewrite lor_shiftl_add by (change (2 ^ 16) with 65536; lia).
      change (2 ^ 16) with 65536. change 0xFFFFFFF with 268435455. lia.
  - unfold l2_if_group, assert, GroupIDCodec.encode.
    destruct (Z.leb_spec port 0xFFFF); [lia |].
    rewrite andb_false_r. reflexivity.
Qed.

Lemma l2_unfiltered_if_group_encode (port : Z) :
  0 <= port ->
  l2_unfiltered_if_group port = GroupIDCodec.encode 11 0 port.
Proof.
  intros Hp.
  destruct (Z.le_gt_cases port 0xFFFF) as [Hple | Hpgt].
  - rewrite l2_unfiltered_if_group_ok by lia.
    rewrite encode_ok by (unfold GroupIDCodec.valid; lia).
    f_equal. lia.
  - unfold l2_unfiltered_if_group, assert, GroupIDCodec.encode.
    destruct (Z.leb_spec port 0xFFFF); [lia |].
    rewrite andb_false_r. reflexivity.
Qed.

(** The assertions of the source test upper bounds only: a negative port
    passes them, and the or with a negative number then hides the other
    fields.  The statements below are about fields that are not
    negative. *)
Example negative_port_passes : l2_if_group (-1) 0x1000 = Ok (-1).
Proof. reflexivity. Qed.




(** C5.  The two named constructors are the stated encodings: for every
    valid port and vlan, [l2_if_group port vlan] is [encode 0 vlan port],
    that is [port | vlan << 16] with 0 in bits 28-31, and
    [l2_unfiltered_if_group port] is [encode 11 0 port], that is the port
    in the low bits with 11 in bits 28-31. *)
Theorem constructors_are_encodings (port vlan : Z) :
  0 <= port <= 0xFFFF -> 0 <= vlan <= 0xFFF ->
  l2_if_group port vlan = GroupIDCodec.encode 0 vlan port /\
  l2_if_group port vlan = Ok (Z.lor port (Z.shiftl vlan 16)) /\
  Z.shiftr (Z.lor port (Z.shiftl vlan 16)) 28 = 0 /\
  l2_unfiltered_if_group port = GroupIDCodec.encode 11 0 port /\
  l2_unfiltered_if_group port = Ok (Z.lor port (Z.shiftl 11 28)) /\
  Z.shiftr (Z.lor port (Z.shiftl 11 28)) 28 = 11 /\
  Z.land (Z.lor port (Z.shiftl 11 28)) 0xFFFFFFF = port.
Proof.
  intros Hp Hv.
  assert (Hp' : 0 <= port < 2 ^ 16)
    by (change 0xFFFF with 65535 in Hp; change (2 ^ 16) with 65536; lia).
  assert (Hp'' : 0 <= port < 2 ^ 28)
    by (change 0xFFFF with 65535 in Hp; change (2 ^ 28) with 268435456; lia).
  rewrite (lor_shiftl_add port vlan 16) by lia.
  rewrite (lor_shiftl_add port 11 28) by lia.
  rewrite l2_if_group_encode, l2_unfiltered_if_group_encode by lia.
  rewrite !encode_ok by (unfold GroupIDCodec.valid; lia).
  change 0xFFFFFFF with (Z.ones 28).
  rewrite Z.land_ones by lia. rewrite !Z.shiftr_div_pow2 by lia.
  change (2 ^ 16) with 65536 in *. change (2 ^ 28) with 268435456 in *.
  change 0xFFF with 4095 in Hv.
  split; [reflexivity |]. split; [f_equal; lia |].
  split; [Z.div_mod_to_equations; lia |].
  split; [reflexivity |]. split; [f_equal; lia |].
  split; Z.div_mod_to_equations; lia.
Qed.

Lemma constructors_are_encodings_witness :
  (0 <= 2 <= 0xFFFF /\ 0 <= 1 <= 0xFFF) /\
  l2_if_group 2 1 = GroupIDCodec.encode 0 1 2 /\
  l2_if_group 2 1 = Ok (Z.lor 2 (Z.shiftl 1 16)) /\
  Z.shiftr (Z.lor 2 (Z.shiftl 1 16)) 28 = 0 /\
  l2_unfiltered_if_group 2 = GroupIDCodec.encode 11 0 2 /\
  l2_unfiltered_if_group 2 = Ok (Z.lor 2 (Z.shiftl 11 28)) /\
  Z.shiftr (Z.lor 2 (Z.shiftl 11 28)) 28 = 11 /\
  Z.land (Z.lor 2 (Z.shiftl 11 28)) 0xFFFFFFF = 2.
Proof.
  assert (Hp : 0 <= 2 <= 0xFFFF) by lia.
  assert (Hv : 0 <= 1 <= 0xFFF) by lia.
  split; [split; assumption | exact (constructors_are_encodings 2 1 Hp Hv)].
Defined.

(** C10.  The two group-id families are disjoint and fit in 32 bits: for
    all ports p, p' <= 0xFFFF and vlan <= 0xFFF both constructors return,
    [l2_if_group p vlan] with 0 in bits 28-31 and
    [l2_unfiltered_if_group p'] with 11 there, the two ids differ and both
    are below 2^32. *)
Theorem group_families_disjoint (p p' vlan : Z) :
  0 <= p <= 0xFFFF -> 0 <= p' <= 0xFFFF -> 0 <= vlan <= 0xFFF ->
  l2_if_group p vlan <> l2_unfiltered_if_group p' /\
  exists a b,
    l2_if_group p vlan = Ok a /\
    l2_unfiltered_if_group p' = Ok b /\
    a <> b /\
    Z.shiftr a 28 = 0 /\
    Z.shiftr b 28 = 11 /\
    0 <= a < 2 ^ 32 /\ 0 <= b < 2 ^ 32.
Proof.
  intros Hp Hp' Hv.
  rewrite l2_if_group_ok, l2_unfiltered_if_group_ok by assumption.
  change 0xFFFF with 65535 in *. change 0xFFF with 4095 in *.
  assert (Hne : p + vlan * 2 ^ 16 <> p' + 11 * 2 ^ 28)
    by (change (2 ^ 16) with 65536; change (2 ^ 28) with 268435456; lia).
  split; [intros [= E]; exact (Hne E) |].
  exists (p + vlan * 2 ^ 16), (p' + 11 * 2 ^ 28).
  split; [reflexivity |]. split; [reflexivity |]. split; [exact Hne |].
  rewrite !Z.shiftr_div_pow2 by lia.
  change (2 ^ 16) with 65536. change (2 ^ 28) with 268435456.
  change (2 ^ 32) with 4294967296.
  split; [Z.div_mod_to_equations; lia |].
  split; [Z.div_mod_to_equations; lia |]. lia.
Qed.

Lemma group_families_disjoint_witness :
  (0 <= 0xFFFF <= 0xFFFF /\ 0 <= 0 <= 0xFFFF /\ 0 <= 0xFFF <= 0xFFF) /\
  l2_if_group 0xFFFF 0xFFF <> l2_unfiltered_if_group 0 /\
  exists a b,
    l2_if_group 0xFFFF 0xFFF = Ok a /\
    l2_unfiltered_if_group 0 = Ok b /\
    a <> b /\
    Z.shiftr a 28 = 0 /\
    Z.shiftr b 28 = 11 /\
    0 <= a < 2 ^ 32 /\ 0 <= b < 2 ^ 32.
Proof.
  assert (Hp : 0 <= 0xFFFF <= 0xFFFF) by lia.
  assert (Hp' : 0 <= 0 <= 0xFFFF) by lia.
  assert (Hv : 0 <= 0xFFF <= 0xFFF) by lia.
  split; [repeat split; lia |].
  exact (group_families_disjoint 0xFFFF 0 0xFFF Hp Hp' Hv).
Defined.

(* ===================================================================== *)
(** * Running a plan over a transport *)
(* ===================================================================== *)

(** One step of a plan: the transport decides on the first call. *)
Lemma run_plan_cons (link : list call -> call -> option exn) (c : call)
    (calls : list call) (w : World) :
  run_plan link (c :: calls) w
  = match link (sent w) c with
    | Some e => (Raise e, w)
    | None =>
        run_plan link calls
          {| sent := sent w ++ [c]; log := log w; stderr := stderr w |}
    end.
Proof.
  unfold run_plan. cbn [for_each]. unfold bind, send.
  destruct (link (sent w) c); reflexivity.
Qed.

(** Sending never touches the log or the tracebacks, and the accepted
    calls are a prefix of the plan: either all of it, every call
    accepted, or the calls before the first one that raises. *)
Lemma run_plan_outcome (link : list call -> call -> option exn)
    (calls : list call) :
  forall w,
    let r := run_plan link calls w in
    log (snd r) = log w /\ stderr (snd r) = stderr w /\
    ((fst r = Ok tt /\ sent (snd r) = sent w ++ calls)
     \/ exists k c e,
          nth_error calls k = Some c /\
          link (sent w ++ firstn k calls) c = Some e /\
          fst r = Raise e /\
          sent (snd r) = sent w ++ firstn k calls).
Proof.
  induction calls as [| c calls IH]; intros w; cbv zeta.
  - cbn. split; [reflexivity |]. split; [reflexivity |]. left.
    split; [reflexivity |]. symmetry. apply app_nil_r.
  - rewrite run_plan_cons.
    destruct (link (sent w) c) as [e |] eqn:El.
    + cbn. split; [reflexivity |]. split; [reflexivity |]. right.
      exists 0%nat, c, e. cbn. rewrite app_nil_r. auto.
    + specialize (IH {| sent := sent w ++ [c]; log := log w;
                        stderr := stderr w |}).
      cbv zeta in IH. cbn [sent log stderr] in IH.
      destruct IH as (Hl & Hs & [[Hr Hsent] | (k & c' & e & Hn & Hk & Hr & Hsent)]).
      * split; [exact Hl |]. split; [exact Hs |]. left.
        split; [exact Hr |]. rewrite Hsent, <- app_assoc. reflexivity.
      * split; [exact Hl |]. split; [exact Hs |]. right.
        exists (S k), c', e. cbn [nth_error firstn].
        rewrite <- app_assoc in Hk, Hsent. auto.
Qed.

(** The outcome is decided by the first call that raises. *)
Lemma run_plan_fails (link : list call -> call -> option exn)
    (calls : list call) :
  forall w k c e,
    nth_error calls k = Some c ->
    (forall j c', (j < k)%nat -> nth_error calls j = Some c' ->
                  link (sent w ++ firstn j calls) c' = None) ->
    link (sent w ++ firstn k calls) c = Some e ->
    let r := run_plan link calls w in
    fst r = Raise e /\ sent (snd r) = sent w ++ firstn k calls.
Proof.
  induction calls as [| c0 calls IH]; intros w k c e Hn Hbefore Hk; cbv zeta.
  - destruct k; discriminate.
  - rewrite run_plan_cons. destruct k as [| k].
    + cbn in Hn, Hk. injection Hn as ->. rewrite app_nil_r in Hk.
      rewrite Hk. cbn. rewrite app_nil_r. auto.
    + assert (H0 : link (sent w) c0 = None).
      { specialize (Hbefore 0%nat c0). cbn in Hbefore.
        rewrite app_nil_r in Hbefore. apply Hbefore; [lia | reflexivity]. }
      rewrite H0. cbn in Hn.
      specialize (IH {| sent := sent w ++ [c0]; log := log w;
                        stderr := stderr w |} k c e Hn).
      cbv zeta in IH. cbn [sent] in IH. cbn [firstn].
      replace (sent w ++ c0 :: firstn k calls)
        with ((sent w ++ [c0]) ++ firstn k calls)
        by (rewrite <- app_assoc; reflexivity).
      apply IH.
      * intros j c' Hj Hnj. rewrite <- app_assoc.
        apply (Hbefore (S j) c'); [lia | exact Hnj].
      * rewrite <- app_assoc. exact Hk.
Qed.

(** The handler's body makes the calls of [full_trace] in order, after
    its log line. *)
Lemma body_runs_plan (link : list call -> call -> option exn)
    (datapath : Datapath) (w : World) :
  switch_features_body link datapath w
  = run_plan link (full_trace datapath)
      {| sent := sent w;
         log := log w ++ [Configuring_new_datapath (datapath_id datapath)];
         stderr := stderr w |}.
Proof.
  destruct w as [tr0 lg0 err0]. unfold full_trace.
  set (tr := sent (cycle reliable datapath)).
  cbv in tr. subst tr.
  unfold run_plan. cbv.
  repeat match goal with
         | |- _ = match (match link ?h ?c with _ => _ end) with _ => _ end =>
             destruct (link h c); [reflexivity |]; cbv beta iota
         end.
  reflexivity.
Qed.

(** From a fresh world the handler returns normally, has written its log
    line, and has sent a prefix of [full_trace]: all of it and no
    traceback, or the calls before the first one that raised and the
    traceback of that exception. *)
Lemma handler_outcome (link : list call -> call -> option exn)
    (datapath : Datapath) :
  let r := switch_features_handler link datapath World0 in
  fst r = Ok tt /\
  log (snd r) = [Configuring_new_datapath (datapath_id datapath)] /\
  ((sent (snd r) = full_trace datapath /\ stderr (snd r) = [])
   \/ exists k c e,
        nth_error (full_trace datapath) k = Some c /\
        link (firstn k (full_trace datapath)) c = Some e /\
        sent (snd r) = firstn k (full_trace datapath) /\
        stderr (snd r) = [e]).
Proof.
  cbv zeta. unfold switch_features_handler, try_except_print_exc.
  rewrite body_runs_plan.
  pose proof (run_plan_outcome link (full_trace datapath)
                {| sent := sent World0;
                   log := log World0
                          ++ [Configuring_new_datapath (datapath_id datapath)];
                   stderr := stderr World0 |}) as H.
  cbv zeta in H. cbn [sent log stderr World0 app] in H.
  cbn [sent log stderr World0 app].
  destruct (run_plan link (full_trace datapath) _) as [[u | e] w'];
    cbn [fst snd sent log stderr] in *.
  - destruct H as (Hl & Hs & [[_ Hsent] | (k & c & e & _ & _ & Hr & _)]);
      [| discriminate].
    rewrite Hs. auto.
  - destruct H as (Hl & Hs & [[Hr _] | (k & c & e' & Hn & Hk & Hr & Hsent)]);
      [discriminate |].
    injection Hr as ->. rewrite Hs. split; [reflexivity |].
    split; [exact Hl |]. right. exists k, c, e'. auto.
Qed.

(** Both ordering properties pass to every prefix of a trace. *)
Lemma groups_precede_references_firstn (tr : list call) (k : nat) :
  groups_precede_references tr -> groups_precede_references (firstn k tr).
Proof.
  intros H i c g Hn Hr. rewrite nth_error_firstn in Hn.
  destruct (Nat.ltb_spec i k) as [Hik |]; [| discriminate].
  destruct (H i c g Hn Hr) as (j & c' & Hj & Hnj & Hg).
  exists j, c'. split; [exact Hj |]. split; [| exact Hg].
  rewrite nth_error_firstn.
  destruct (Nat.ltb_spec j k); [exact Hnj | lia].
Qed.

Lemma wipes_precede_installs_firstn (datapath : Datapath) (tr : list call)
    (k : nat) :
  wipes_precede_installs datapath tr ->
  wipes_precede_installs datapath (firstn k tr).
Proof.
  intros H i c Hn Hi. rewrite nth_error_firstn in Hn.
  destruct (Nat.ltb_spec i k) as [Hik |]; [| discriminate].
  destruct (H i c Hn Hi) as (j & j' & Hj & Hj' & Hnj & Hnj').
  exists j, j'. split; [exact Hj |]. split; [exact Hj' |].
  rewrite !nth_error_firstn.
  destruct (Nat.ltb_spec j k); [| lia].
  destruct (Nat.ltb_spec j' k); [| lia].
  auto.
Qed.

(** The undisturbed trace is ordered: the two bridging entries (calls 9
    and 10) reference the groups installed by calls 8 and 7, and the two
    wipes are calls 0 and 1. *)
Lemma full_trace_groups_first (dpid : Z) :
  groups_precede_references (full_trace (datapath13 dpid)).
Proof.
  intros i c g Hn (m & Hin & Hact).
  set (tr := full_trace (datapath13 dpid)) in *. vm_compute in tr.
  do 11 (try match goal with
              | H : nth_error _ ?n = Some _ |- _ =>
                  is_var n; destruct n as [| n];
                  [ cbn in H; injection H as <-; vm_compute in Hin;
                    try contradiction;
                    destruct Hin as [<- | []]; vm_compute in Hact;
                    try contradiction;
                    destruct Hact as [E | []]; try discriminate E;
                    injection E as <-
                  | cbn in H ]
              end).
  - exists 8%nat. eexists. split; [lia |]. split; [reflexivity |].
    eexists. split; [left; reflexivity | reflexivity].
  - exists 7%nat. eexists. split; [lia |]. split; [reflexivity |].
    eexists. split; [left; reflexivity | reflexivity].
  - destruct i; discriminate.
Qed.

Lemma full_trace_wipes_first (dpid : Z) :
  wipes_precede_installs (datapath13 dpid) (full_trace (datapath13 dpid)).
Proof.
  intros i c Hn Hi.
  destruct i as [| [| i]].
  - exfalso. vm_compute in Hn. injection Hn as <-.
    destruct Hi as [Hi | Hi]; apply Hi; reflexivity.
  - exfalso. vm_compute in Hn. injection Hn as <-.
    destruct Hi as [Hi | Hi]; apply Hi; reflexivity.
  - exists 0%nat, 1%nat. repeat split; try lia; reflexivity.
Qed.

(* ===================================================================== *)
(** * The provisioning cycle: the claims *)
(* ===================================================================== *)

(** C1.  With ports 1 and 2 and native VLAN 1, an undisturbed cycle
    installs seven flow entries and two groups: one table-miss entry
    (ACL table, priority 0, empty match, no action); four VLAN_TABLE
    entries, for each port one matching the tagged native VLAN and one
    matching untagged traffic; two ACL entries at priority 1000, in_port 1
    sending to the group of port 2 and in_port 2 to the group of port 1;
    two INDIRECT groups with ids encode(0,1,1) and encode(0,1,2), each
    with the single bucket [pop-VLAN, output(port)]. *)
Theorem concrete_scenario (dpid : Z) :
  let w := cycle reliable (datapath13 dpid) in
  let fl := flow_entries (sent w) in
  let gr := group_entries (sent w) in
  let tagged := Z.lor 1 (OFPVID_PRESENT ofproto_v1_3) in
  stderr w = [] /\
  length fl = 7%nat /\
  map flow_view (filter (has_priority 0) fl)
  = [ (Some ACL_TABLE, Some 0,
       Some {| in_port := None; vlan_vid := None |}, [], []) ] /\
  map flow_view (filter (in_table VLAN_TABLE) fl)
  = [ (Some VLAN_TABLE, Some 3,
       Some {| in_port := Some 1; vlan_vid := Some tagged |},
       [], [TERMINATION_MAC]);
      (Some VLAN_TABLE, Some 3,
       Some {| in_port := Some 1; vlan_vid := Some 0 |},
       [OFPActionSetField_vlan_vid 1], [TERMINATION_MAC]);
      (Some VLAN_TABLE, Some 3,
       Some {| in_port := Some 2; vlan_vid := Some tagged |},
       [], [TERMINATION_MAC]);
      (Some VLAN_TABLE, Some 3,
       Some {| in_port := Some 2; vlan_vid := Some 0 |},
       [OFPActionSetField_vlan_vid 1], [TERMINATION_MAC]) ] /\
  map flow_view (filter (has_priority 1000) fl)
  = [ (Some ACL_TABLE, Some 1000,
       Some {| in_port := Some 1; vlan_vid := Some tagged |},
       [OFPActionGroup 0x10002], []);
      (Some ACL_TABLE, Some 1000,
       Some {| in_port := Some 2; vlan_vid := Some tagged |},
       [OFPActionGroup 0x10001], []) ] /\
  map group_view gr
  = [ (OFPGT_INDIRECT ofproto_v1_3, 0x10001,
       [[OFPActionPopVlan; OFPActionOutput 1]]);
      (OFPGT_INDIRECT ofproto_v1_3, 0x10002,
       [[OFPActionPopVlan; OFPActionOutput 2]]) ] /\
  l2_if_group 1 1 = Ok 0x10001 /\
  l2_if_group 2 1 = Ok 0x10002 /\
  GroupIDCodec.encode 0 1 1 = Ok 0x10001 /\
  GroupIDCodec.encode 0 1 2 = Ok 0x10002.
Proof.
  vm_compute. repeat split; reflexivity.
Qed.

(** C2.  Whatever the transport does, in the trace of one cycle every
    flow entry that references a group id comes after the call that
    installed that group, and every install, of a flow or of a group,
    comes after the two wipe calls; an undisturbed cycle does send
    entries that reference groups. *)
Theorem install_order (link : list call -> call -> option exn) (dpid : Z) :
  let tr := sent (cycle link (datapath13 dpid)) in
  groups_precede_references tr /\
  wipes_precede_installs (datapath13 dpid) tr /\
  exists c c',
    nth_error (sent (cycle reliable (datapath13 dpid))) 9 = Some c /\
    references_group 0x10002 c /\
    nth_error (sent (cycle reliable (datapath13 dpid))) 10 = Some c' /\
    references_group 0x10001 c'.
Proof.
  cbv zeta. unfold cycle.
  destruct (handler_outcome link (datapath13 dpid))
    as (_ & _ & [[-> _] | (k & c & e & _ & _ & -> & _)]).
  - split; [apply full_trace_groups_first |].
    split; [apply full_trace_wipes_first |].
    do 2 eexists. split; [reflexivity |].
    split; [eexists; split; [left; reflexivity | left; reflexivity] |].
    split; [reflexivity |].
    eexists; split; [left; reflexivity | left; reflexivity].
  - split; [apply groups_precede_references_firstn,
              full_trace_groups_first |].
    split; [apply wipes_precede_installs_firstn,
              full_trace_wipes_first |].
    do 2 eexists. split; [reflexivity |].
    split; [eexists; split; [left; reflexivity | left; reflexivity] |].
    split; [reflexivity |].
    eexists; split; [left; reflexivity | left; reflexivity].
Qed.

(** C6.  For each port p the first loop installs two VLAN_TABLE entries,
    both at priority 3 with goto TERMINATION_MAC: the one matching
    (in_port = p, native VLAN present) has no action, the one matching
    untagged ingress (in_port = p, vlan_vid = 0) has exactly one action,
    the set-field of the native VLAN id.  The VLAN_TABLE entries of a
    cycle are these, for ports 1 and 2 and native VLAN 1, and no entry of
    the cycle carries a push-VLAN action. *)
Theorem vlan_table_entries (datapath : Datapath) (dpid n_vlan n_vlan_match p : Z) :
  let loop_body q nv nvm :=
    flow_entries (sent (snd (vlan_entries reliable datapath nv nvm q World0))) in
  let fl := flow_entries (sent (cycle reliable (datapath13 dpid))) in
  map flow_view (loop_body p n_vlan n_vlan_match)
  = [ (Some VLAN_TABLE, Some 3,
       Some {| in_port := Some p; vlan_vid := Some n_vlan_match |},
       [], [TERMINATION_MAC]);
      (Some VLAN_TABLE, Some 3,
       Some {| in_port := Some p; vlan_vid := Some 0 |},
       [OFPActionSetField_vlan_vid n_vlan], [TERMINATION_MAC]) ] /\
  map flow_view (filter (in_table VLAN_TABLE) fl)
  = flat_map
      (fun q => map flow_view
                  (loop_body q 1 (Z.lor 1 (OFPVID_PRESENT ofproto_v1_3))))
      [1; 2] /\
  forallb (fun m => negb (existsb is_push_vlan (flow_actions m))) fl = true /\
  VLAN_TABLE = 10 /\ TERMINATION_MAC = 20.
Proof.
  cbv zeta. split; [reflexivity |]. split; [| split; [| split]];
    vm_compute; reflexivity.
Qed.

(** C7, as the code has it.  If a call of the cycle raises - the calls
    before it having been accepted - the handler makes no further call:
    what was sent is the calls before the failing one.  The bare [except]
    catches the exception, writes its traceback after the log line that
    names the datapath, and the handler returns normally.  When the
    failing call is the install of the table-miss entry, only the two
    wipes were sent: no group entry and no flow entry is applied. *)
Theorem failure_aborts_cycle (link : list call -> call -> option exn)
    (dpid : Z) (k : nat) (c : call) (e : exn) :
  let dp := datapath13 dpid in
  nth_error (full_trace dp) k = Some c ->
  (forall j c', (j < k)%nat -> nth_error (full_trace dp) j = Some c' ->
                link (firstn j (full_trace dp)) c' = None) ->
  link (firstn k (full_trace dp)) c = Some e ->
  let r := switch_features_handler link dp World0 in
  fst r = Ok tt /\
  sent (snd r) = firstn k (full_trace dp) /\
  stderr (snd r) = [e] /\
  log (snd r) = [Configuring_new_datapath dpid] /\
  (c = table_miss_call dp ->
   k = 2%nat /\
   sent (snd r) = [wipe_flows dp; wipe_groups dp] /\
   group_entries (sent (snd r)) = [] /\
   flow_entries (sent (snd r)) = []).
Proof.
  cbv zeta. intros Hn Hbefore Hk.
  unfold switch_features_handler, try_except_print_exc.
  rewrite body_runs_plan.
  set (w0 := {| sent := sent World0;
                log := log World0
                       ++ [Configuring_new_datapath
                             (datapath_id (datapath13 dpid))];
                stderr := stderr World0 |}).
  destruct (run_plan_fails link (full_trace (datapath13 dpid)) w0 k c e Hn
              Hbefore Hk) as [Hr Hsent].
  pose proof (run_plan_outcome link (full_trace (datapath13 dpid)) w0)
    as (Hl & Hs & _).
  destruct (run_plan link (full_trace (datapath13 dpid)) w0) as [[u | e'] w'];
    cbn [fst snd sent log stderr] in *; [discriminate |].
  injection Hr as ->. cbn in Hsent, Hl, Hs.
  split; [reflexivity |]. split; [exact Hsent |].
  split; [rewrite Hs; reflexivity |]. split; [exact Hl |].
  intros ->. rewrite Hsent. clear - Hn.
  assert (Hk2 : k = 2%nat).
  { do 11 (try match goal with
               | H : nth_error _ ?n = Some _ |- _ =>
                   is_var n; destruct n as [| n];
                   [ vm_compute in H; try discriminate H | cbn in H ]
               end).
    - reflexivity.
    - destruct k; discriminate. }
  subst k. split; [reflexivity |]. repeat split; reflexivity.
Qed.

Lemma failure_aborts_cycle_witness :
  let link := fails_at 2 (RaisedBy "connection reset") in
  let dp := datapath13 1 in
  let r := switch_features_handler link dp World0 in
  nth_error (full_trace dp) 2 = Some (table_miss_call dp) /\
  link (firstn 2 (full_trace dp)) (table_miss_call dp)
  = Some (RaisedBy "connection reset") /\
  fst r = Ok tt /\
  sent (snd r) = firstn 2 (full_trace dp) /\
  stderr (snd r) = [RaisedBy "connection reset"] /\
  log (snd r) = [Configuring_new_datapath 1] /\
  (table_miss_call dp = table_miss_call dp ->
   2%nat = 2%nat /\
   sent (snd r) = [wipe_flows dp; wipe_groups dp] /\
   group_entries (sent (snd r)) = [] /\
   flow_entries (sent (snd r)) = []).
Proof.
  cbv zeta.
  assert (Hn : nth_error (full_trace (datapath13 1)) 2
               = Some (table_miss_call (datapath13 1))) by reflexivity.
  assert (Hk : fails_at 2 (RaisedBy "connection reset")
                 (firstn 2 (full_trace (datapath13 1)))
                 (table_miss_call (datapath13 1))
               = Some (RaisedBy "connection reset")) by reflexivity.
  assert (Hbefore : forall j c', (j < 2)%nat ->
            nth_error (full_trace (datapath13 1)) j = Some c' ->
            fails_at 2 (RaisedBy "connection reset")
              (firstn j (full_trace (datapath13 1))) c' = None).
  { intros j c' Hj _. destruct j as [| [| j]]; [reflexivity | reflexivity | lia]. }
  split; [exact Hn |]. split; [exact Hk |].
  exact (failure_aborts_cycle (fails_at 2 (RaisedBy "connection reset")) 1 2
           (table_miss_call (datapath13 1)) (RaisedBy "connection reset")
           Hn Hbefore Hk).
Defined.

(** C7, as stated, fails: the failure of the table-miss install does not
    reach the caller of the handler.  On a transport whose third call
    raises, the handler returns normally and only the traceback records
    the exception. *)
Lemma failure_is_not_propagated :
  let link := fails_at 2 (RaisedBy "connection reset") in
  let dp := datapath13 1 in
  let r := switch_features_handler link dp World0 in
  ~ handler_propagates link dp /\
  fst r = Ok tt /\
  stderr (snd r) = [RaisedBy "connection reset"].
Proof.
  cbv zeta. split; [| split; reflexivity].
  intros H.
  specialize (H 2%nat (table_miss_call (datapath13 1))
                (RaisedBy "connection reset") eq_refl).
  assert (Hbefore : forall j c', (j < 2)%nat ->
            nth_error (full_trace (datapath13 1)) j = Some c' ->
            fails_at 2 (RaisedBy "connection reset")
              (firstn j (full_trace (datapath13 1))) c' = None).
  { intros j c' Hj _. destruct j as [| [| j]]; [reflexivity | reflexivity | lia]. }
  specialize (H Hbefore eq_refl). vm_compute in H. discriminate H.
Qed.

(** The wipes come first, so what an undisturbed cycle leaves on the
    switch does not depend on what was there. *)
Lemma provision_from_any (dpid : Z) (s : Switch) :
  provision dpid s
  = {| flows := flow_entries (full_trace (datapath13 dpid));
       groups := group_entries (full_trace (datapath13 dpid)) |}.
Proof.
  destruct s as [fl gr]. vm_compute. reflexivity.
Qed.

(** C8.  Provisioning is idempotent.  For any switch on which the two
    wipe messages erase the state - what it holds after them does not
    depend on what it held before - and from any prior state, two
    undisturbed cycles in sequence leave the switch as one cycle does, and
    a cycle leaves the same state whatever the prior state was: every
    cycle starts with the two wipes. *)
Theorem provision_idempotent (Sw : Type) (apply : Sw -> call -> Sw)
    (dpid : Z) (s : Sw) :
  let dp := datapath13 dpid in
  let run := fold_left apply (sent (cycle reliable dp)) in
  (forall s1 s2,
     apply (apply s1 (wipe_flows dp)) (wipe_groups dp)
     = apply (apply s2 (wipe_flows dp)) (wipe_groups dp)) ->
  run (run s) = run s /\ (forall s', run s' = run s).
Proof.
  cbv zeta. intros Hwipe.
  set (tr := sent (cycle reliable (datapath13 dpid))).
  assert (Htr : tr = wipe_flows (datapath13 dpid)
                     :: wipe_groups (datapath13 dpid) :: skipn 2 tr)
    by reflexivity.
  assert (Hany : forall s1 s2, fold_left apply tr s1 = fold_left apply tr s2).
  { intros s1 s2. rewrite Htr. cbn [fold_left].
    rewrite (Hwipe s1 s2). reflexivity. }
  split; [apply Hany | intros s'; apply Hany].
Qed.

Lemma provision_idempotent_witness :
  let dp := datapath13 1 in
  let stale :=
    {| flows := [add_flow_mod dp 7 {| in_port := Some 9; vlan_vid := None |}
                   [OFPActionOutput 3] None ACL_TABLE None];
       groups := [add_group_msg dp [] 0x10001 (OFPGT_INDIRECT ofproto_v1_3)] |}
  in
  (forall s1 s2,
     apply_msg (apply_msg s1 (call_msg (wipe_flows dp)))
       (call_msg (wipe_groups dp))
     = apply_msg (apply_msg s2 (call_msg (wipe_flows dp)))
         (call_msg (wipe_groups dp))) /\
  (provision 1 (provision 1 stale) = provision 1 stale /\
   forall s', provision 1 s' = provision 1 stale) /\
  same_set (flows (provision 1 (provision 1 stale)))
    (flows (provision 1 stale)) /\
  same_set (groups (provision 1 (provision 1 stale)))
    (groups (provision 1 stale)) /\
  flows (provision 1 stale) = flow_entries (full_trace dp) /\
  groups (provision 1 stale) = group_entries (full_trace dp).
Proof.
  cbv zeta.
  assert (Hwipe : forall s1 s2,
            apply_msg (apply_msg s1 (call_msg (wipe_flows (datapath13 1))))
              (call_msg (wipe_groups (datapath13 1)))
            = apply_msg (apply_msg s2 (call_msg (wipe_flows (datapath13 1))))
                (call_msg (wipe_groups (datapath13 1)))).
  { intros s1 s2. reflexivity. }
  split; [exact Hwipe |].
  split.
  { exact (provision_idempotent Switch
             (fun s c => apply_msg s (call_msg c)) 1
             {| flows := [add_flow_mod (datapath13 1) 7
                            {| in_port := Some 9; vlan_vid := None |}
                            [OFPActionOutput 3] None ACL_TABLE None];
                groups := [add_group_msg (datapath13 1) [] 0x10001
                             (OFPGT_INDIRECT ofproto_v1_3)] |}
             Hwipe). }
  repeat split; intros H; exact H.
Defined.

(** C9.  [add_flow] treats a [buffer_id] of 0 as an absent one.  Called
    with [buffer_id] 0 or [None] it hands the transport one and the same
    flow-mod, built without the [buffer_id] keyword, and when the
    transport accepts it that message is what is sent; called with a
    [buffer_id] that is not 0 the flow-mod it hands over, and sends,
    carries that buffer id.  In every case the rest of the message is the
    priority, match, table and instructions of the call, and a transport
    that raises leaves nothing sent. *)
Theorem buffer_id_zero_is_absent (link : list call -> call -> option exn)
    (datapath : Datapath) (priority : Z) (match_ : OFPMatch)
    (actions : list action) (table_id : Z) (goto : option Z) (w : World)
    (b : Z) :
  b <> 0 ->
  let apply_actions :=
    OFPInstructionActions (OFPIT_APPLY_ACTIONS (datapath_ofproto datapath))
      actions in
  let inst :=
    match goto with
    | Some g => [apply_actions; OFPInstructionGotoTable g]
    | None => [apply_actions]
    end in
  let flow_mod := fun buffer_id =>
    {| fm_datapath := datapath; fm_buffer_id := buffer_id;
       fm_priority := Some priority; fm_match := Some match_;
       fm_table_id := Some table_id; fm_instructions := Some inst;
       fm_command := None; fm_out_port := None; fm_out_group := None |} in
  let outcome := fun m =>
    match link (sent w) (datapath_send_msg (FlowMod m)) with
    | Some e => (Raise e, w)
    | None =>
        (Ok tt,
         {| sent := sent w ++ [datapath_send_msg (FlowMod m)];
            log := log w; stderr := stderr w |})
    end in
  add_flow link datapath priority match_ actions (Some 0) table_id goto w
  = outcome (flow_mod None) /\
  add_flow link datapath priority match_ actions None table_id goto w
  = outcome (flow_mod None) /\
  add_flow link datapath priority match_ actions (Some b) table_id goto w
  = outcome (flow_mod (Some b)) /\
  sent (snd (add_flow reliable datapath priority match_ actions (Some 0)
               table_id goto w))
  = sent w ++ [datapath_send_msg (FlowMod (flow_mod None))] /\
  sent (snd (add_flow reliable datapath priority match_ actions None
               table_id goto w))
  = sent w ++ [datapath_send_msg (FlowMod (flow_mod None))] /\
  sent (snd (add_flow reliable datapath priority match_ actions (Some b)
               table_id goto w))
  = sent w ++ [datapath_send_msg (FlowMod (flow_mod (Some b)))] /\
  add_flow link datapath priority match_ actions (Some 0) table_id goto w
  = add_flow link datapath priority match_ actions None table_id goto w /\
  add_flow_mod datapath priority match_ actions (Some 0) table_id goto
  = add_flow_mod datapath priority match_ actions None table_id goto /\
  fm_buffer_id
    (add_flow_mod datapath priority match_ actions (Some 0) table_id goto)
  = None /\
  fm_buffer_id
    (add_flow_mod datapath priority match_ actions None table_id goto)
  = None /\
  fm_buffer_id
    (add_flow_mod datapath priority match_ actions (Some b) table_id goto)
  = Some b.
Proof.
  intros Hb. cbv zeta. unfold add_flow, add_flow_mod, send, reliable, truthy.
  change (0 =? 0) with true. cbn [negb].
  destruct (Z.eqb_spec b 0) as [E | _]; [contradiction |].
  cbn [negb fm_buffer_id].
  destruct goto as [g |]; cbn [app]; repeat split; reflexivity.
Qed.

Lemma buffer_id_zero_is_absent_witness :
  let dp := datapath13 1 in
  let m := {| in_port := Some 1; vlan_vid := None |} in
  let flow_mod := fun buffer_id =>
    {| fm_datapath := dp; fm_buffer_id := buffer_id;
       fm_priority := Some 5; fm_match := Some m;
       fm_table_id := Some ACL_TABLE;
       fm_instructions :=
         Some [OFPInstructionActions (OFPIT_APPLY_ACTIONS ofproto_v1_3) []];
       fm_command := None; fm_out_port := None; fm_out_group := None |} in
  7 <> 0 /\
  sent (snd (add_flow reliable dp 5 m [] (Some 0) ACL_TABLE None World0))
  = [datapath_send_msg (FlowMod (flow_mod None))] /\
  sent (snd (add_flow reliable dp 5 m [] None ACL_TABLE None World0))
  = [datapath_send_msg (FlowMod (flow_mod None))] /\
  sent (snd (add_flow reliable dp 5 m [] (Some 7) ACL_TABLE None World0))
  = [datapath_send_msg (FlowMod (flow_mod (Some 7)))] /\
  add_flow (fails_at 0 AssertionError) dp 5 m [] (Some 7) ACL_TABLE None
    World0
  = (Raise AssertionError, World0).
Proof.
  cbv zeta.
  assert (H7 : 7 <> 0) by lia.
  split; [exact H7 |].
  destruct (buffer_id_zero_is_absent reliable (datapath13 1) 5
              {| in_port := Some 1; vlan_vid := None |} [] ACL_TABLE None
              World0 7 H7) as (_ & _ & _ & H0 & HN & H7' & _).
  split; [exact H0 |]. split; [exact HN |]. split; [exact H7' |].
  destruct (buffer_id_zero_is_absent (fails_at 0 AssertionError)
              (datapath13 1) 5
              {| in_port := Some 1; vlan_vid := None |} [] ACL_TABLE None
              World0 7 H7) as (_ & _ & Hf & _).
  exact Hf.
Defined.

(* ===================================================================== *)
(** * Further properties of the group-id builders *)
(* ===================================================================== *)

(** A constructor call that returns, on a port and a vlan that are not
    negative, had both in range and returns their sum. *)
Lemma l2_if_group_inv (port vlan_id id : Z) :
  0 <= port -> 0 <= vlan_id ->
  l2_if_group port vlan_id = Ok id ->
  port <= 0xFFFF /\ vlan_id <= 0xFFF /\ id = port + vlan_id * 2 ^ 16.
Proof.
  intros Hp Hv Hid. unfold l2_if_group, assert in Hid.
  destruct (Z.leb_spec port 0xFFFF) as [Hple |]; [| discriminate].
  change 0xFFFF with 65535 in *.
  rewrite lor_shiftl_add in Hid by (change (2 ^ 16) with 65536; lia).
  apply ofdpa_group_id_inv in Hid;
    [| change (2 ^ 16) with 65536; lia | lia].
  destruct Hid as (_ & Hi & ->).
  change 0xFFFFFFF with 268435455 in Hi. change (2 ^ 16) with 65536 in *.
  change 0xFFF with 4095. lia.
Qed.

Lemma l2_unfiltered_if_group_inv (port id : Z) :
  0 <= port ->
  l2_unfiltered_if_group port = Ok id ->
  port <= 0xFFFF /\ id = port + 11 * 2 ^ 28.
Proof.
  intros Hp Hid. unfold l2_unfiltered_if_group, assert in Hid.
  destruct (Z.leb_spec port 0xFFFF) as [Hple |]; [| discriminate].
  apply ofdpa_group_id_inv in Hid; [| lia | lia].
  destruct Hid as (_ & _ & ->). auto.
Qed.

(** A constructor call with the port or the vlan above its bound fails. *)
Lemma l2_if_group_raise (port vlan_id : Z) :
  0 <= port -> 0 <= vlan_id ->
  0xFFFF < port \/ 0xFFF < vlan_id ->
  l2_if_group port vlan_id = Raise AssertionError.
Proof.
  intros Hp Hv Hbad.
  destruct (l2_if_group port vlan_id) as [id | e] eqn:E.
  - apply l2_if_group_inv in E; [lia | assumption | assumption].
  - revert E. unfold l2_if_group, _ofdpa_group_id, assert.
    repeat match goal with
           | |- context [if ?b then _ else _] => destruct b
           end; congruence.
Qed.

(** The builder is injective: an id it returns determines the index and
    the type it was built from, the index in bits 0-27 and the type in
    bits 28-31, and lies below 13 * 2^28. *)
Theorem ofdpa_group_id_injective (index type index' type' id : Z) :
  0 <= index -> 0 <= type -> 0 <= index' -> 0 <= type' ->
  _ofdpa_group_id index type = Ok id ->
  _ofdpa_group_id index' type' = Ok id ->
  index = index' /\ type = type' /\
  Z.land id 0xFFFFFFF = index /\ Z.shiftr id 28 = type /\
  0 <= id < 13 * 2 ^ 28.
Proof.
  intros Hi Ht Hi' Ht' H H'.
  apply ofdpa_group_id_inv in H; [| assumption | assumption].
  apply ofdpa_group_id_inv in H'; [| assumption | assumption].
  destruct H as (Ht12 & Him & Hid). destruct H' as (Ht12' & Him' & Hid').
  change 0xFFFFFFF with (Z.ones 28).
  rewrite Z.land_ones by lia. rewrite Z.shiftr_div_pow2 by lia.
  change (Z.ones 28) with 268435455 in *.
  change (2 ^ 28) with 268435456 in *.
  subst id. repeat split; try (Z.div_mod_to_equations; lia); lia.
Qed.

Lemma ofdpa_group_id_injective_witness :
  (0 <= 5 /\ 0 <= 3 /\ _ofdpa_group_id 5 3 = Ok 805306373) /\
  5 = 5 /\ 3 = 3 /\
  Z.land 805306373 0xFFFFFFF = 5 /\ Z.shiftr 805306373 28 = 3 /\
  0 <= 805306373 < 13 * 2 ^ 28.
Proof.
  assert (H5 : 0 <= 5) by lia. assert (H3 : 0 <= 3) by lia.
  assert (E : _ofdpa_group_id 5 3 = Ok 805306373) by reflexivity.
  split; [repeat split; assumption |].
  exact (ofdpa_group_id_injective 5 3 5 3 805306373 H5 H3 H5 H3 E E).
Defined.

(** [l2_if_group] is injective: an id it returns determines the port, in
    bits 0-15, and the vlan, in the bits above; the id is below 2^28, so
    its type field is 0.  Two ports, or two vlans, never share a group. *)
Theorem l2_if_group_injective (port vlan port' vlan' id : Z) :
  0 <= port -> 0 <= vlan -> 0 <= port' -> 0 <= vlan' ->
  l2_if_group port vlan = Ok id ->
  l2_if_group port' vlan' = Ok id ->
  port = port' /\ vlan = vlan' /\
  Z.land id 0xFFFF = port /\ Z.shiftr id 16 = vlan /\
  0 <= id < 2 ^ 28.
Proof.
  intros Hp Hv Hp' Hv' H H'.
  apply l2_if_group_inv in H; [| assumption | assumption].
  apply l2_if_group_inv in H'; [| assumption | assumption].
  destruct H as (Hpm & Hvm & Hid). destruct H' as (Hpm' & Hvm' & Hid').
  change 0xFFFF with (Z.ones 16).
  rewrite Z.land_ones by lia. rewrite Z.shiftr_div_pow2 by lia.
  change (Z.ones 16) with 65535 in *. change 0xFFF with 4095 in *.
  change (2 ^ 16) with 65536 in *. change (2 ^ 28) with 268435456.
  subst id. repeat split; try (Z.div_mod_to_equations; lia); lia.
Qed.

Lemma l2_if_group_injective_witness :
  (0 <= 2 /\ 0 <= 1 /\ l2_if_group 2 1 = Ok 65538) /\
  2 = 2 /\ 1 = 1 /\
  Z.land 65538 0xFFFF = 2 /\ Z.shiftr 65538 16 = 1 /\
  0 <= 65538 < 2 ^ 28.
Proof.
  assert (H2 : 0 <= 2) by lia. assert (H1 : 0 <= 1) by lia.
  assert (E : l2_if_group 2 1 = Ok 65538) by reflexivity.
  split; [repeat split; assumption |].
  exact (l2_if_group_injective 2 1 2 1 65538 H2 H1 H2 H1 E E).
Defined.

(** [l2_unfiltered_if_group] is injective: an id it returns has the port
    in bits 0-15, nothing in bits 16-27 and 11 in bits 28-31. *)
Theorem l2_unfiltered_if_group_injective (port port' id : Z) :
  0 <= port -> 0 <= port' ->
  l2_unfiltered_if_group port = Ok id ->
  l2_unfiltered_if_group port' = Ok id ->
  port = port' /\
  Z.land id 0xFFFF = port /\
  Z.land (Z.shiftr id 16) 0xFFF = 0 /\
  Z.shiftr id 28 = 11.
Proof.
  intros Hp Hp' H H'.
  apply l2_unfiltered_if_group_inv in H; [| assumption].
  apply l2_unfiltered_if_group_inv in H'; [| assumption].
  destruct H as (Hpm & Hid). destruct H' as (Hpm' & Hid').
  change 0xFFFF with (Z.ones 16). change 0xFFF with (Z.ones 12).
  rewrite !Z.land_ones by lia. rewrite !Z.shiftr_div_pow2 by lia.
  change (Z.ones 16) with 65535 in *.
  change (2 ^ 12) with 4096. change (2 ^ 16) with 65536.
  change (2 ^ 28) with 268435456 in *.
  subst id. repeat split; try (Z.div_mod_to_equations; lia); lia.
Qed.

Lemma l2_unfiltered_if_group_injective_witness :
  (0 <= 7 /\ l2_unfiltered_if_group 7 = Ok 2952790023) /\
  7 = 7 /\
  Z.land 2952790023 0xFFFF = 7 /\
  Z.land (Z.shiftr 2952790023 16) 0xFFF = 0 /\
  Z.shiftr 2952790023 28 = 11.
Proof.
  assert (H7 : 0 <= 7) by lia.
  assert (E : l2_unfiltered_if_group 7 = Ok 2952790023) by reflexivity.
  split; [split; assumption |].
  exact (l2_unfiltered_if_group_injective 7 7 2952790023 H7 H7 E E).
Defined.

(** The assertions have no lower bound.  A negative port passes both
    constructors whatever the vlan is, and a negative type passes the
    builder; the id returned is then negative, not a 32-bit pattern. *)
Theorem negative_fields_pass (port vlan_id type index : Z) :
  port < 0 -> type < 0 -> index <= 0xFFFFFFF ->
  (exists id, l2_if_group port vlan_id = Ok id /\ id < 0) /\
  (exists id, l2_unfiltered_if_group port = Ok id /\ id < 0) /\
  (exists id, _ofdpa_group_id index type = Ok id /\ id < 0).
Proof.
  intros Hp Ht Hi.
  assert (Hb : forall i t, i <= 0xFFFFFFF -> t <= 12 -> (i < 0 \/ t < 0) ->
            exists id, _ofdpa_group_id i t = Ok id /\ id < 0).
  { intros i t Hi' Ht' Hneg. unfold _ofdpa_group_id, assert.
    destruct (Z.leb_spec t 12); [| lia].
    destruct (Z.leb_spec i 0xFFFFFFF); [| lia].
    eexists. split; [reflexivity |].
    apply Z.lor_neg. destruct Hneg as [Hn | Hn]; [left; exact Hn |].
    right. apply Z.shiftl_neg. exact Hn. }
  split; [| split].
  - unfold l2_if_group, assert.
    destruct (Z.leb_spec port 0xFFFF); [| lia].
    assert (Hneg : Z.lor port (Z.shiftl vlan_id 16) < 0)
      by (apply Z.lor_neg; left; exact Hp).
    apply Hb; [lia | lia | left; exact Hneg].
  - unfold l2_unfiltered_if_group, assert.
    destruct (Z.leb_spec port 0xFFFF); [| lia].
    apply Hb; [lia | lia | left; exact Hp].
  - apply Hb; [exact Hi | lia | right; exact Ht].
Qed.

Lemma negative_fields_pass_witness :
  (-1 < 0 /\ -3 < 0 /\ 5 <= 0xFFFFFFF) /\
  (exists id, l2_if_group (-1) 0x1000 = Ok id /\ id < 0) /\
  (exists id, l2_unfiltered_if_group (-1) = Ok id /\ id < 0) /\
  (exists id, _ofdpa_group_id 5 (-3) = Ok id /\ id < 0).
Proof.
  assert (H1 : -1 < 0) by lia. assert (H3 : -3 < 0) by lia.
  assert (H5 : 5 <= 0xFFFFFFF) by lia.
  split; [repeat split; assumption |].
  exact (negative_fields_pass (-1) 0x1000 (-3) 5 H1 H3 H5).
Defined.

(* ===================================================================== *)
(** * Further properties of the handler and its loops *)
(* ===================================================================== *)

Lemma In_firstn {A : Type} (k : nat) (l : list A) (x : A) :
  In x (firstn k l) -> In x l.
Proof.
  intros H. rewrite <- (firstn_skipn k l). apply in_or_app. left. exact H.
Qed.

(** One round of a loop: the body's outcome decides whether the loop
    goes on. *)
Lemma for_each_cons {A : Type} (x : A) (xs : list A) (body : A -> M unit)
    (w : World) :
  for_each (x :: xs) body w
  = match body x w with
    | (Ok _, w') => for_each xs body w'
    | (Raise e, w') => (Raise e, w')
    end.
Proof. reflexivity. Qed.

(** A cycle makes eleven calls when nothing raises, for any datapath. *)
Lemma full_trace_length (datapath : Datapath) :
  length (full_trace datapath) = 11%nat.
Proof. reflexivity. Qed.

(** What a cycle sent is a prefix of the undisturbed trace. *)
Lemma cycle_prefix (link : list call -> call -> option exn)
    (datapath : Datapath) :
  exists k, (k <= 11)%nat /\
    sent (cycle link datapath) = firstn k (full_trace datapath).
Proof.
  unfold cycle.
  destruct (handler_outcome link datapath)
    as (_ & _ & [[-> _] | (k & c & e & Hn & _ & -> & _)]).
  - exists 11%nat. split; [lia |].
    rewrite <- (full_trace_length datapath). symmetry. apply firstn_all.
  - exists k. split; [| reflexivity].
    assert (Hlt : (k < length (full_trace datapath))%nat)
      by (apply nth_error_Some; rewrite Hn; discriminate).
    rewrite full_trace_length in Hlt. lia.
Qed.

(** The two branches of [add_flow] differ in the buffer id only: whatever
    [buffer_id] is, the flow-mod has the priority, the match and the
    table that were passed, its actions are the action list, and it has a
    goto instruction exactly when [goto] is given - [goto] is compared
    with [None], so table 0 is a goto target like any other. *)
Theorem add_flow_ignores_buffer_id (datapath : Datapath) (priority : Z)
    (match_ : OFPMatch) (actions : list action) (buffer_id : option Z)
    (table_id : Z) (goto : option Z) :
  let m := add_flow_mod datapath priority match_ actions buffer_id
             table_id goto in
  fm_datapath m = datapath /\
  fm_priority m = Some priority /\
  fm_match m = Some match_ /\
  fm_table_id m = Some table_id /\
  flow_actions m = actions /\
  flow_goto m = match goto with Some g => [g] | None => [] end /\
  flow_goto
    (add_flow_mod datapath priority match_ actions buffer_id table_id (Some 0))
  = [0] /\
  fm_command m = None /\ fm_out_port m = None /\ fm_out_group m = None /\
  (fm_buffer_id m = None \/ fm_buffer_id m = buffer_id).
Proof.
  cbv zeta. unfold add_flow_mod, flow_actions, flow_goto.
  destruct (truthy buffer_id); destruct goto as [g |];
    cbn; rewrite ?app_nil_r; repeat split; auto.
Qed.

(** The group id is built before anything is sent: when it cannot be
    built, [port_group] raises and leaves the world as it was. *)
Lemma port_group_assertion (link : list call -> call -> option exn)
    (datapath : Datapath) (n_vlan port : Z) (w : World) :
  0 <= port -> 0 <= n_vlan ->
  0xFFFF < port \/ 0xFFF < n_vlan ->
  port_group link datapath n_vlan port w = (Raise AssertionError, w).
Proof.
  intros Hp Hv Hbad. unfold port_group, bind, lift.
  rewrite (l2_if_group_raise port n_vlan Hp Hv Hbad). reflexivity.
Qed.

(** [port_group] builds the group id before it sends.  When the port is
    above 0xFFFF, whatever the vlan is, or when the port is not negative
    and the vlan is above 0xFFF, the id cannot be built:
    [AssertionError] is raised, nothing is sent and nothing is logged,
    and the transport is not even asked.  (A negative port is outside
    this: it passes the assertions.) *)
Theorem port_group_rejects (link link' : list call -> call -> option exn)
    (datapath : Datapath) (n_vlan port : Z) (w : World) :
  0xFFFF < port \/ (0 <= port /\ 0xFFF < n_vlan) ->
  port_group link datapath n_vlan port w = (Raise AssertionError, w) /\
  port_group link datapath n_vlan port w
  = port_group link' datapath n_vlan port w.
Proof.
  intros Hbad.
  assert (H : forall l, port_group l datapath n_vlan port w
                        = (Raise AssertionError, w)).
  { intros l. destruct Hbad as [Hp | [Hp Hv]].
    - unfold port_group, bind, lift, l2_if_group, assert.
      destruct (Z.leb_spec port 0xFFFF); [lia | reflexivity].
    - apply port_group_assertion; [exact Hp | lia | right; exact Hv]. }
  rewrite !H. split; reflexivity.
Qed.

Lemma port_group_rejects_witness :
  (0xFFFF < 0x10000 \/ (0 <= 0x10000 /\ 0xFFF < -5)) /\
  port_group reliable (datapath13 1) (-5) 0x10000 World0
  = (Raise AssertionError, World0) /\
  port_group reliable (datapath13 1) (-5) 0x10000 World0
  = port_group (fails_at 0 AssertionError) (datapath13 1) (-5) 0x10000
      World0.
Proof.
  assert (Hbad : 0xFFFF < 0x10000 \/ (0 <= 0x10000 /\ 0xFFF < -5))
    by (left; lia).
  split; [exact Hbad |].
  exact (port_group_rejects reliable (fails_at 0 AssertionError)
           (datapath13 1) (-5) 0x10000 World0 Hbad).
Defined.

(** With a valid port and vlan [port_group] makes one call, the add of a
    group of the datapath's INDIRECT type whose id carries the port in
    bits 0-15 and the vlan in bits 16-27, and whose single bucket outputs
    to that same port. *)
Theorem port_group_sends (link : list call -> call -> option exn)
    (datapath : Datapath) (n_vlan port : Z) (w : World) :
  0 <= port <= 0xFFFF -> 0 <= n_vlan <= 0xFFF ->
  exists gm,
    port_group link datapath n_vlan port w
    = send link (datapath_send_msg (GroupMod gm)) w /\
    datapath_send_msg (GroupMod gm)
    = port_group_call datapath port (gm_group_id gm) /\
    Z.land (gm_group_id gm) 0xFFFF = port /\
    Z.shiftr (gm_group_id gm) 16 = n_vlan /\
    group_outputs gm = [port] /\
    gm_type gm = OFPGT_INDIRECT (datapath_ofproto datapath) /\
    gm_datapath gm = datapath.
Proof.
  intros Hp Hv. unfold port_group, bind, lift, add_group.
  rewrite (l2_if_group_ok port n_vlan Hp Hv).
  eexists. split; [reflexivity |]. split; [reflexivity |].
  cbn [add_group_msg gm_group_id gm_type gm_datapath].
  change 0xFFFF with (Z.ones 16).
  rewrite Z.land_ones by lia. rewrite Z.shiftr_div_pow2 by lia.
  change (Z.ones 16) with 65535 in *. change 0xFFF with 4095 in *.
  change (2 ^ 16) with 65536.
  repeat split; try reflexivity; Z.div_mod_to_equations; lia.
Qed.

Lemma port_group_sends_witness :
  (0 <= 2 <= 0xFFFF /\ 0 <= 1 <= 0xFFF) /\
  exists gm,
    port_group reliable (datapath13 1) 1 2 World0
    = send reliable (datapath_send_msg (GroupMod gm)) World0 /\
    datapath_send_msg (GroupMod gm)
    = port_group_call (datapath13 1) 2 (gm_group_id gm) /\
    Z.land (gm_group_id gm) 0xFFFF = 2 /\
    Z.shiftr (gm_group_id gm) 16 = 1 /\
    group_outputs gm = [2] /\
    gm_type gm = OFPGT_INDIRECT (datapath_ofproto (datapath13 1)) /\
    gm_datapath gm = datapath13 1.
Proof.
  assert (Hp : 0 <= 2 <= 0xFFFF) by lia.
  assert (Hv : 0 <= 1 <= 0xFFF) by lia.
  split; [split; assumption |].
  exact (port_group_sends reliable (datapath13 1) 1 2 World0 Hp Hv).
Defined.

(** One round of the group loop on an accepting transport. *)
Lemma port_group_reliable (datapath : Datapath) (n_vlan port : Z)
    (w : World) :
  0 <= port <= 0xFFFF -> 0 <= n_vlan <= 0xFFF ->
  port_group reliable datapath n_vlan port w
  = (Ok tt,
     {| sent := sent w
                ++ [port_group_call datapath port (port + n_vlan * 2 ^ 16)];
        log := log w; stderr := stderr w |}).
Proof.
  intros Hp Hv. unfold port_group, bind, lift, add_group.
  rewrite (l2_if_group_ok port n_vlan Hp Hv). reflexivity.
Qed.

(** The group loop over any list of valid ports, on a transport that
    accepts every call, installs one group per port, in the order of the
    list, with the id [port | vlan << 16]. *)
Theorem group_loop_installs (datapath : Datapath) (n_vlan : Z)
    (ports : list Z) (w : World) :
  0 <= n_vlan <= 0xFFF ->
  Forall (fun p => 0 <= p <= 0xFFFF) ports ->
  let r := for_each ports (port_group reliable datapath n_vlan) w in
  fst r = Ok tt /\
  sent (snd r)
  = sent w
    ++ map (fun p => port_group_call datapath p (p + n_vlan * 2 ^ 16)) ports /\
  log (snd r) = log w /\ stderr (snd r) = stderr w.
Proof.
  intros Hv Hports. revert w. cbv zeta.
  induction Hports as [| p ports Hp _ IH]; intros w.
  - cbn. rewrite app_nil_r. auto.
  - cbn [map]. rewrite for_each_cons.
    rewrite (port_group_reliable datapath n_vlan p w Hp Hv).
    destruct (IH {| sent := sent w
                            ++ [port_group_call datapath p
                                  (p + n_vlan * 2 ^ 16)];
                    log := log w; stderr := stderr w |})
      as (Hr & Hs & Hl & He).
    cbn [sent log stderr] in Hs, Hl, He.
    split; [exact Hr |]. split; [| split; assumption].
    rewrite Hs, <- app_assoc. reflexivity.
Qed.

Lemma group_loop_installs_witness :
  (0 <= 1 <= 0xFFF /\ Forall (fun p => 0 <= p <= 0xFFFF) [1; 2; 3]) /\
  let r := for_each [1; 2; 3] (port_group reliable (datapath13 1) 1) World0 in
  fst r = Ok tt /\
  sent (snd r)
  = sent World0
    ++ map (fun p => port_group_call (datapath13 1) p (p + 1 * 2 ^ 16))
         [1; 2; 3] /\
  log (snd r) = log World0 /\ stderr (snd r) = stderr World0.
Proof.
  assert (Hv : 0 <= 1 <= 0xFFF) by lia.
  assert (Hports : Forall (fun p => 0 <= p <= 0xFFFF) [1; 2; 3])
    by (repeat constructor; lia).
  split; [split; assumption |].
  exact (group_loop_installs (datapath13 1) 1 [1; 2; 3] World0 Hv Hports).
Defined.

(** The group loop stops at the first port above 0xFFFF: the groups of
    the ports before it are installed, [AssertionError] is raised, and no
    later port gets a group. *)
Theorem group_loop_stops_at_bad_port (datapath : Datapath) (n_vlan : Z)
    (good : list Z) (bad : Z) (rest : list Z) (w : World) :
  0 <= n_vlan <= 0xFFF ->
  Forall (fun p => 0 <= p <= 0xFFFF) good ->
  0xFFFF < bad ->
  let r := for_each (good ++ bad :: rest)
             (port_group reliable datapath n_vlan) w in
  fst r = Raise AssertionError /\
  sent (snd r)
  = sent w
    ++ map (fun p => port_group_call datapath p (p + n_vlan * 2 ^ 16)) good /\
  log (snd r) = log w /\ stderr (snd r) = stderr w.
Proof.
  intros Hv Hgood Hbad. revert w. cbv zeta.
  induction Hgood as [| p good Hp _ IH]; intros w.
  - cbn [app map]. rewrite for_each_cons.
    rewrite port_group_assertion; [| lia | lia | left; exact Hbad].
    cbn. rewrite app_nil_r. auto.
  - cbn [app map]. rewrite for_each_cons.
    rewrite (port_group_reliable datapath n_vlan p w Hp Hv).
    destruct (IH {| sent := sent w
                            ++ [port_group_call datapath p
                                  (p + n_vlan * 2 ^ 16)];
                    log := log w; stderr := stderr w |})
      as (Hr & Hs & Hl & He).
    cbn [sent log stderr] in Hs, Hl, He.
    split; [exact Hr |]. split; [| split; assumption].
    rewrite Hs, <- app_assoc. reflexivity.
Qed.

Lemma group_loop_stops_at_bad_port_witness :
  (0 <= 1 <= 0xFFF /\ Forall (fun p => 0 <= p <= 0xFFFF) [1] /\
   0xFFFF < 0x10000) /\
  let r := for_each ([1] ++ 0x10000 :: [2])
             (port_group reliable (datapath13 1) 1) World0 in
  fst r = Raise AssertionError /\
  sent (snd r)
  = sent World0
    ++ map (fun p => port_group_call (datapath13 1) p (p + 1 * 2 ^ 16)) [1] /\
  log (snd r) = log World0 /\ stderr (snd r) = stderr World0.
Proof.
  assert (Hv : 0 <= 1 <= 0xFFF) by lia.
  assert (Hgood : Forall (fun p => 0 <= p <= 0xFFFF) [1])
    by (repeat constructor; lia).
  assert (Hbad : 0xFFFF < 0x10000) by lia.
  split; [split; [exact Hv | split; [exact Hgood | exact Hbad]] |].
  exact (group_loop_stops_at_bad_port (datapath13 1) 1 [1] 0x10000 [2]
           World0 Hv Hgood Hbad).
Defined.

(** One round of the VLAN loop on an accepting transport. *)
Lemma vlan_entries_reliable (datapath : Datapath) (n_vlan n_vlan_match p : Z)
    (w : World) :
  vlan_entries reliable datapath n_vlan n_vlan_match p w
  = (Ok tt,
     {| sent := sent w ++ vlan_entries_calls datapath n_vlan n_vlan_match p;
        log := log w; stderr := stderr w |}).
Proof.
  unfold vlan_entries, add_flow, bind, send, reliable, vlan_entries_calls.
  cbn [sent log stderr]. rewrite <- app_assoc. reflexivity.
Qed.

(** The VLAN loop checks no port against the bound of the group
    builders.  Over any list of ports that fit the 32-bit port field of a
    match - ports above 0xFFFF, which the group loop refuses, included -
    and with vlan ids that fit their 16-bit field, on a transport that
    accepts every call it installs two VLAN_TABLE entries per port, in
    the order of the list, the tagged entry before the untagged one, both
    at priority 3 with goto TERMINATION_MAC.  Within these widths the
    match and the set-field carry the values as they were passed. *)
Theorem vlan_loop_entries (datapath : Datapath) (n_vlan n_vlan_match : Z)
    (ports : list Z) (w : World) :
  Forall (fun p => 0 <= p < 2 ^ 32) ports ->
  0 <= n_vlan < 2 ^ 16 -> 0 <= n_vlan_match < 2 ^ 16 ->
  let r := for_each ports
             (vlan_entries reliable datapath n_vlan n_vlan_match) w in
  let calls :=
    flat_map (vlan_entries_calls datapath n_vlan n_vlan_match) ports in
  fst r = Ok tt /\
  sent (snd r) = sent w ++ calls /\
  log (snd r) = log w /\ stderr (snd r) = stderr w /\
  length calls = (2 * length ports)%nat /\
  map flow_view (flow_entries calls)
  = flat_map
      (fun p =>
         [ (Some VLAN_TABLE, Some 3,
            Some {| in_port := Some p; vlan_vid := Some n_vlan_match |},
            [], [TERMINATION_MAC]);
           (Some VLAN_TABLE, Some 3,
            Some {| in_port := Some p; vlan_vid := Some 0 |},
            [OFPActionSetField_vlan_vid n_vlan], [TERMINATION_MAC]) ])
      ports.
Proof.
  intros _ _ _.
  cbv zeta. revert w. induction ports as [| p ports IH]; intros w.
  - cbn. rewrite app_nil_r. repeat split; reflexivity.
  - rewrite for_each_cons, vlan_entries_reliable.
    destruct (IH {| sent := sent w
                            ++ vlan_entries_calls datapath n_vlan
                                 n_vlan_match p;
                    log := log w; stderr := stderr w |})
      as (Hr & Hs & Hl & He & Hlen & Hviews).
    cbn [sent log stderr] in Hs, Hl, He.
    split; [exact Hr |].
    split; [rewrite Hs, <- app_assoc; reflexivity |].
    split; [exact Hl |]. split; [exact He |].
    cbn [flat_map]. split.
    + rewrite length_app, Hlen. cbn. lia.
    + unfold flow_entries in *. rewrite flat_map_app, map_app, Hviews.
      reflexivity.
Qed.

Lemma vlan_loop_entries_witness :
  let dp := datapath13 1 in
  let r := for_each [1; 0x10000] (vlan_entries reliable dp 1 0x1001) World0 in
  (Forall (fun p => 0 <= p < 2 ^ 32) [1; 0x10000] /\
   0 <= 1 < 2 ^ 16 /\ 0 <= 0x1001 < 2 ^ 16) /\
  fst r = Ok tt /\
  sent (snd r)
  = sent World0 ++ flat_map (vlan_entries_calls dp 1 0x1001) [1; 0x10000] /\
  log (snd r) = log World0 /\ stderr (snd r) = stderr World0 /\
  length (flat_map (vlan_entries_calls dp 1 0x1001) [1; 0x10000])
  = 4%nat /\
  map flow_view
    (flow_entries (flat_map (vlan_entries_calls dp 1 0x1001) [1; 0x10000]))
  = flat_map
      (fun p =>
         [ (Some VLAN_TABLE, Some 3,
            Some {| in_port := Some p; vlan_vid := Some 0x1001 |},
            [], [TERMINATION_MAC]);
           (Some VLAN_TABLE, Some 3,
            Some {| in_port := Some p; vlan_vid := Some 0 |},
            [OFPActionSetField_vlan_vid 1], [TERMINATION_MAC]) ])
      [1; 0x10000].
Proof.
  cbv zeta.
  assert (Hports : Forall (fun p => 0 <= p < 2 ^ 32) [1; 0x10000])
    by (repeat constructor; lia).
  assert (Hv : 0 <= 1 < 2 ^ 16) by lia.
  assert (Hm : 0 <= 0x1001 < 2 ^ 16) by lia.
  split; [split; [exact Hports | split; [exact Hv | exact Hm]] |].
  exact (vlan_loop_entries (datapath13 1) 1 0x1001 [1; 0x10000] World0
           Hports Hv Hm).
Defined.

(** The handler never raises and only appends.  From any world, on any
    transport and for any datapath it returns normally; it adds its one
    log line, at most one traceback, and to the calls already sent a
    prefix of the eleven calls of a cycle; nothing recorded before is
    lost. *)
Theorem handler_never_raises (link : list call -> call -> option exn)
    (datapath : Datapath) (w : World) :
  let r := switch_features_handler link datapath w in
  fst r = Ok tt /\
  log (snd r) = log w ++ [Configuring_new_datapath (datapath_id datapath)] /\
  (exists k, (k <= 11)%nat /\
     sent (snd r) = sent w ++ firstn k (full_trace datapath)) /\
  (stderr (snd r) = stderr w \/ exists e, stderr (snd r) = stderr w ++ [e]).
Proof.
  cbv zeta. unfold switch_features_handler, try_except_print_exc.
  rewrite body_runs_plan.
  set (w0 := {| sent := sent w;
                log := log w
                       ++ [Configuring_new_datapath (datapath_id datapath)];
                stderr := stderr w |}).
  pose proof (run_plan_outcome link (full_trace datapath) w0) as H.
  cbv zeta in H.
  destruct (run_plan link (full_trace datapath) w0) as [[u | e] w'];
    cbn [fst snd sent log stderr] in *.
  - destruct H as (Hl & Hs & [[_ Hsent] | (k & c & e & _ & _ & Hr & _)]);
      [| discriminate].
    split; [reflexivity |]. split; [exact Hl |]. split; [| left; exact Hs].
    exists 11%nat. split; [lia |]. rewrite Hsent. reflexivity.
  - destruct H as (Hl & Hs & [[Hr _] | (k & c & e' & Hn & _ & _ & Hsent)]);
      [discriminate |].
    split; [reflexivity |]. split; [exact Hl |].
    split; [| right; exists e; rewrite Hs; reflexivity].
    exists k. split; [| exact Hsent].
    assert (Hlt : (k < length (full_trace datapath))%nat)
      by (apply nth_error_Some; rewrite Hn; discriminate).
    rewrite full_trace_length in Hlt. lia.
Qed.

(** A cycle leaves no traceback exactly when it made all eleven calls:
    an empty stderr means the datapath was fully provisioned, and a
    traceback means at least one call is missing. *)
Theorem no_traceback_iff_complete (link : list call -> call -> option exn)
    (datapath : Datapath) :
  let w := cycle link datapath in
  (stderr w = [] <-> sent w = full_trace datapath) /\
  (stderr w = [] <-> length (sent w) = 11%nat) /\
  (length (sent w) <= 11)%nat /\ (length (stderr w) <= 1)%nat.
Proof.
  cbv zeta. unfold cycle.
  destruct (handler_outcome link datapath)
    as (_ & _ & [[Hs He] | (k & c & e & Hn & _ & Hs & He)]);
    rewrite Hs, He.
  - rewrite full_trace_length. cbn. repeat split; auto.
  - assert (Hlt : (k < 11)%nat).
    { rewrite <- (full_trace_length datapath). apply nth_error_Some.
      rewrite Hn. discriminate. }
    assert (Hlen : length (firstn k (full_trace datapath)) = k)
      by (apply firstn_length_le; rewrite full_trace_length; lia).
    rewrite Hlen. cbn [length].
    split; [| split; [| split; lia]].
    + split; [discriminate |]. intros E.
      apply (f_equal (@length call)) in E.
      rewrite Hlen, full_trace_length in E. lia.
    + split; [discriminate | lia].
Qed.

(** A cycle talks to one datapath only: every message it sends was built
    for the handler's datapath, whatever the transport does. *)
Theorem every_message_for_the_datapath
    (link : list call -> call -> option exn) (datapath : Datapath) :
  Forall (fun c => msg_datapath (call_msg c) = datapath)
    (sent (cycle link datapath)).
Proof.
  destruct (cycle_prefix link datapath) as (k & _ & ->).
  apply Forall_forall. intros c Hin. apply In_firstn in Hin.
  revert c Hin. apply Forall_forall.
  unfold full_trace. cbv -[msg_datapath call_msg].
  repeat constructor.
Qed.

(** The two ways of sending are kept apart.  In every cycle the calls
    through [api.send_msg] are the first two, the delete of all flows and
    then the delete of all groups; every later call goes through
    [datapath.send_msg]. *)
Theorem wipes_through_api_only (link : list call -> call -> option exn)
    (datapath : Datapath) (i : nat) (c : call) :
  nth_error (sent (cycle link datapath)) i = Some c ->
  (is_api c = true <-> (i < 2)%nat) /\
  (i = 0%nat -> c = wipe_flows datapath) /\
  (i = 1%nat -> c = wipe_groups datapath).
Proof.
  destruct (cycle_prefix link datapath) as (k & _ & ->).
  rewrite nth_error_firstn. destruct (i <? k)%nat; [| discriminate].
  intros Hn.
  let t := eval cbv in (full_trace datapath) in
  change (full_trace datapath) with t in Hn.
  do 11 (try match goal with
             | H : nth_error _ ?n = Some _ |- _ =>
                 is_var n; destruct n as [| n];
                 [ cbn [nth_error] in H; injection H as <-;
                   repeat split; intros; try reflexivity; try lia;
                   try discriminate
                 | cbn [nth_error] in H ]
             end).
  match goal with
  | H : nth_error _ ?n = Some _ |- _ => destruct n; discriminate H
  end.
Qed.

Lemma wipes_through_api_only_witness :
  nth_error (sent (cycle reliable (datapath13 1))) 1
  = Some (wipe_groups (datapath13 1)) /\
  (is_api (wipe_groups (datapath13 1)) = true <-> (1 < 2)%nat) /\
  (1%nat = 0%nat -> wipe_groups (datapath13 1) = wipe_flows (datapath13 1)) /\
  (1%nat = 1%nat -> wipe_groups (datapath13 1) = wipe_groups (datapath13 1)).
Proof.
  assert (Hn : nth_error (sent (cycle reliable (datapath13 1))) 1
               = Some (wipe_groups (datapath13 1))) by reflexivity.
  split; [exact Hn |].
  exact (wipes_through_api_only reliable (datapath13 1) 1
           (wipe_groups (datapath13 1)) Hn).
Defined.

(** Reading the entries of a prefix gives a prefix of the entries. *)
Lemma NoDup_map_flat_map_firstn {A B C : Type} (f : B -> C)
    (g : A -> list B) (l : list A) (k : nat) :
  NoDup (map f (flat_map g l)) -> NoDup (map f (flat_map g (firstn k l))).
Proof.
  intros H. rewrite <- (firstn_skipn k l) in H.
  rewrite flat_map_app, map_app in H.
  exact (NoDup_app_remove_r _ _ H).
Qed.

(** No entry of a cycle overwrites another: whatever the transport does,
    the flow entries installed occupy pairwise different slots (table,
    priority, match) and the groups installed have pairwise different
    ids. *)
Theorem entries_never_collide (link : list call -> call -> option exn)
    (dpid : Z) :
  let tr := sent (cycle link (datapath13 dpid)) in
  NoDup (map flow_slot (flow_entries tr)) /\
  NoDup (map gm_group_id (group_entries tr)).
Proof.
  cbv zeta.
  destruct (cycle_prefix link (datapath13 dpid)) as (k & _ & ->).
  split; apply NoDup_map_flat_map_firstn.
  - change (NoDup (map flow_slot (flow_entries (full_trace (datapath13 dpid))))).
    vm_compute.
    repeat (constructor;
            [intros HIn; cbn in HIn; intuition discriminate |]).
    constructor.
  - change (NoDup (map gm_group_id
                     (group_entries (full_trace (datapath13 dpid))))).
    vm_compute.
    repeat (constructor;
            [intros HIn; cbn in HIn; intuition discriminate |]).
    constructor.
Qed.

(** No entry of a cycle sends a packet back out of its ingress port.
    Whatever the transport does, a flow entry that references a group
    matches on an ingress port, the group it references has been
    installed, and that group outputs to one port, the port in bits 0-15
    of its id, which is not the ingress port. *)
Theorem bridging_never_hairpins (link : list call -> call -> option exn)
    (dpid : Z) (m : OFPFlowMod) (g : Z) :
  let tr := sent (cycle link (datapath13 dpid)) in
  In m (flow_entries tr) -> In g (flow_groups m) ->
  exists gm p q,
    In gm (group_entries tr) /\ gm_group_id gm = g /\
    flow_in_port m = Some p /\ group_outputs gm = [q] /\
    Z.land g 0xFFFF = q /\ p <> q.
Proof.
  cbv zeta.
  destruct (cycle_prefix link (datapath13 dpid)) as (k & Hk & ->).
  intros Hm Hg.
  do 12 (try (destruct k as [| k];
              [ vm_compute in Hm;
                repeat match goal with
                       | H : _ \/ _ |- _ => destruct H as [H | H]
                       | H : False |- _ => contradiction H
                       end;
                subst m; vm_compute in Hg;
                repeat match goal with
                       | H : _ \/ _ |- _ => destruct H as [H | H]
                       | H : False |- _ => contradiction H
                       end;
                subst g;
                first
                  [ solve [ do 3 eexists; split;
                            [ cbv; left; reflexivity
                            | repeat split; try reflexivity;
                              intros E; discriminate E ] ]
                  | solve [ do 3 eexists; split;
                            [ cbv; right; left; reflexivity
                            | repeat split; try reflexivity;
                              intros E; discriminate E ] ] ]
              | ])).
  lia.
Qed.

Lemma bridging_never_hairpins_witness :
  let tr := sent (cycle reliable (datapath13 1)) in
  let m := add_flow_mod (datapath13 1) 1000
             {| in_port := Some 1; vlan_vid := Some 0x1001 |}
             [OFPActionGroup 0x10002] None ACL_TABLE None in
  (In m (flow_entries tr) /\ In 0x10002 (flow_groups m)) /\
  exists gm p q,
    In gm (group_entries tr) /\ gm_group_id gm = 0x10002 /\
    flow_in_port m = Some p /\ group_outputs gm = [q] /\
    Z.land 0x10002 0xFFFF = q /\ p <> q.
Proof.
  cbv zeta.
  assert (Hm : In (add_flow_mod (datapath13 1) 1000
                     {| in_port := Some 1; vlan_vid := Some 0x1001 |}
                     [OFPActionGroup 0x10002] None ACL_TABLE None)
                 (flow_entries (sent (cycle reliable (datapath13 1)))))
    by (vm_compute; do 5 right; left; reflexivity).
  assert (Hg : In 0x10002
                 (flow_groups
                    (add_flow_mod (datapath13 1) 1000
                       {| in_port := Some 1; vlan_vid := Some 0x1001 |}
                       [OFPActionGroup 0x10002] None ACL_TABLE None)))
    by (vm_compute; left; reflexivity).
  split; [split; assumption |].
  exact (bridging_never_hairpins reliable 1 _ 0x10002 Hm Hg).
Defined.

(** Every traceback of a cycle comes from the transport: the exception
    printed is the one the transport raised on the first call it refused,
    and the calls sent are those before it.  The assertions of the
    group-id builders never fail on the handler's own ports and vlan. *)
Theorem traceback_comes_from_transport
    (link : list call -> call -> option exn) (datapath : Datapath)
    (e : exn) :
  In e (stderr (cycle link datapath)) ->
  exists k c,
    (k < 11)%nat /\
    nth_error (full_trace datapath) k = Some c /\
    link (firstn k (full_trace datapath)) c = Some e /\
    sent (cycle link datapath) = firstn k (full_trace datapath) /\
    stderr (cycle link datapath) = [e].
Proof.
  unfold cycle.
  destruct (handler_outcome link datapath)
    as (_ & _ & [[_ He] | (k & c & e' & Hn & Hk & Hs & He)]);
    rewrite He; intros Hin.
  - contradiction.
  - destruct Hin as [<- | []]. exists k, c.
    split; [| auto].
    rewrite <- (full_trace_length datapath). apply nth_error_Some.
    rewrite Hn. discriminate.
Qed.

Lemma traceback_comes_from_transport_witness :
  let link := fails_at 4 AssertionError in
  let dp := datapath13 1 in
  In AssertionError (stderr (cycle link dp)) /\
  exists k c,
    (k < 11)%nat /\
    nth_error (full_trace dp) k = Some c /\
    link (firstn k (full_trace dp)) c = Some AssertionError /\
    sent (cycle link dp) = firstn k (full_trace dp) /\
    stderr (cycle link dp) = [AssertionError].
Proof.
  cbv zeta.
  assert (Hin : In AssertionError
                  (stderr (cycle (fails_at 4 AssertionError) (datapath13 1))))
    by (vm_compute; left; reflexivity).
  split; [exact Hin |].
  exact (traceback_comes_from_transport (fails_at 4 AssertionError)
           (datapath13 1) AssertionError Hin).
Defined.
